(** * sysinfo: a verified model of the system-information snapshot

    The development embeds [src/sysinfo.py] in Rocq.  The program queries
    five operating-system data sources (identity, CPU, memory, disk, GPU),
    reshapes what they report into nested dictionaries and returns them as
    one snapshot.  The data sources are libraries outside the repository
    ([platform], [psutil], [cpuinfo], [GPUtil]); they appear here as an
    environment of call outcomes, each either a value or a raised
    exception.  Python floats are IEEE-754 binary64 numbers, modelled by
    the Standard Library's [spec_float] with precision 53 and [emax] 1024.
    The MCP server object and the registration of [get_sysinfo] as its
    tool are transport: the decorator hands the function back unchanged,
    and neither is modelled. *)

From Stdlib Require Import ZArith List String Bool Lia.
From Stdlib Require Import Floats.SpecFloat.
Import ListNotations.
Local Open Scope string_scope.
Local Open Scope list_scope.
Local Open Scope Z_scope.
#[local] Set Warnings "-register-all".

(** ** Exceptions and the error monad *)

(** A raised Python exception: its class name and the text [str(e)]
    yields.  Every exception of the model is an instance of [Exception],
    which is what the program's [except Exception] clauses catch. *)
Record exn : Type := Exn { exn_class : string; exn_str : string }.

(** The outcome of evaluating a Python expression or running a function
    body: it returns a value or it raises. *)
Inductive result (A : Type) : Type :=
| Ok (a : A)
| Raise (e : exn).
Arguments Ok {A} a.
Arguments Raise {A} e.

Definition bind {A B : Type} (m : result A) (k : A -> result B) : result B :=
  match m with
  | Ok a => k a
  | Raise e => Raise e
  end.

(** [try: body  except Exception as e: handler]. *)
Definition try_except {A : Type} (body : result A) (handler : exn -> result A)
  : result A :=
  match body with
  | Ok a => Ok a
  | Raise e => handler e
  end.

Notation "x <- m ;; k" := (bind m (fun x => k))
  (at level 61, m at next level, right associativity).

(** ** Python floats *)

Module PyFloat.

Definition prec : Z := 53.
Definition emax : Z := 1024.

Definition float : Type := spec_float.

Definition fdiv : float -> float -> float := SFdiv prec emax.
Definition fmul : float -> float -> float := SFmul prec emax.

(** An integer as an exact (not yet rounded) floating-point operand. *)
Definition int_operand (n : Z) : float :=
  match n with
  | Z0 => S754_zero false
  | Zpos p => S754_finite false p 0
  | Zneg p => S754_finite true p 0
  end.

(** [float(n)] for an integer [n]: the nearest binary64 number. *)
Definition float_of_int (n : Z) : float := binary_normalize prec emax n 0 false.

Definition one : float := SFone prec emax.
Definition zero : float := S754_zero false.

(** [a / b] on Python integers: the correctly rounded quotient,
    [ZeroDivisionError] on a zero divisor and [OverflowError] when the
    quotient is beyond the largest float. *)
Definition int_truediv (a b : Z) : result float :=
  if b =? 0 then Raise (Exn "ZeroDivisionError" "division by zero")
  else
    match fdiv (int_operand a) (int_operand b) with
    | S754_infinity _ =>
        Raise (Exn "OverflowError"
                   "integer division result too large for a float")
    | q => Ok q
    end.

(** [num / den] rounded to the nearest integer, ties to the even one
    ([0 <= num], [0 < den]). *)
Definition div_half_even (num den : Z) : Z :=
  let q := num / den in
  match 2 * (num mod den) ?= den with
  | Lt => q
  | Gt => q + 1
  | Eq => if Z.even q then q else q + 1
  end.

(** The magnitude [m * 2^e] as a fraction of integers. *)
Definition numerator (m : positive) (e : Z) : Z := Zpos m * 2 ^ Z.max 0 e.
Definition denominator (e : Z) : Z := 2 ^ Z.max 0 (- e).

(** The magnitude [m * 2^e] in hundredths, rounded half to even. *)
Definition hundredths (m : positive) (e : Z) : Z :=
  match e with
  | Zneg p => div_half_even (Zpos m * 100) (2 ^ Zpos p)
  | _ => Zpos m * 100 * 2 ^ e
  end.

(** The binary64 number nearest to the decimal [(-1)^s * k / 100]. *)
Definition decimal2 (s : bool) (k : Z) : float :=
  match k with
  | Zpos p => fdiv (S754_finite s p 0) (S754_finite false 100 0)
  | _ => S754_zero s
  end.

(** [round(x, 2)] on a float: the exact value of [x] is rounded to two
    decimals, ties to even, and the decimal is converted back to the
    nearest float; zeros, infinities and NaN round to themselves.
    CPython raises [OverflowError] when the decimal is beyond the largest
    float; at two decimals this cannot happen, since a binary64 number
    of magnitude [2^52] or more is an integer and rounds to itself. *)
Definition round2 (x : float) : float :=
  match x with
  | S754_finite s m e => decimal2 s (hundredths m e)
  | _ => x
  end.

(** The second half of [binary_round_aux]: a mantissa that has just been
    rounded is fitted to the format once more (the rounding may have
    carried into a new bit) and tested against the largest exponent. *)
Definition round_finish (s : bool) (m e : Z) : float :=
  let '(mrs, e') := shr_fexp prec emax m e loc_Exact in
  match shr_m mrs with
  | Z0 => S754_zero s
  | Zpos p => if e' <=? emax - prec then S754_finite s p e' else S754_infinity s
  | Zneg _ => S754_nan
  end.

End PyFloat.

(** ** Python values *)

(** The values the program builds: [None], integers, floats, strings,
    lists and dictionaries.  A dictionary keeps its keys in insertion
    order, as Python's [dict] does. *)
Inductive pyval : Type :=
| VNone
| VInt (n : Z)
| VFloat (x : PyFloat.float)
| VStr (s : string)
| VList (l : list pyval)
| VDict (d : list (string * pyval)).

Definition dict : Type := list (string * pyval).

(** [d.get(key)]: the value stored under [key], if any. *)
Fixpoint dict_get (d : dict) (key : string) : option pyval :=
  match d with
  | [] => None
  | (k, v) :: rest => if String.eqb k key then Some v else dict_get rest key
  end.

(** [d.get(key, default)]. *)
Definition dict_get_default (d : dict) (key : string) (default : pyval) : pyval :=
  match dict_get d key with
  | Some v => v
  | None => default
  end.

(** [d[key] = v]: overwrite in place, or append a new key. *)
Fixpoint dict_set (d : dict) (key : string) (v : pyval) : dict :=
  match d with
  | [] => [(key, v)]
  | (k, w) :: rest =>
      if String.eqb k key then (k, v) :: rest else (k, w) :: dict_set rest key v
  end.

Definition keys (d : dict) : list string := map fst d.

(** An optional integer as [psutil.cpu_count] returns it: an [int] or [None]. *)
Definition of_optional_int (o : option Z) : pyval :=
  match o with
  | Some n => VInt n
  | None => VNone
  end.

(** [s or default] on strings: the empty string is falsy. *)
Definition str_or (s default : string) : string :=
  match s with
  | EmptyString => default
  | _ => s
  end.

(** ** The data sources *)

(** [platform.uname()]. *)
Record uname_result : Type := {
  system : string;
  node : string;
  release : string;
  version : string;
  machine : string;
  processor : string
}.

(** [psutil.cpu_freq()], in MHz. *)
Record scpufreq : Type := {
  current : PyFloat.float;
  freq_min : PyFloat.float;
  freq_max : PyFloat.float
}.

(** [psutil.virtual_memory()]: byte counts and the used share in percent. *)
Record svmem : Type := {
  mem_total : Z;
  mem_available : Z;
  mem_used : Z;
  mem_percent : PyFloat.float
}.

(** [psutil.disk_usage(path)]. *)
Record sdiskusage : Type := {
  disk_total : Z;
  disk_used : Z;
  disk_free : Z;
  disk_percent : PyFloat.float
}.

(** One device of [GPUtil.getGPUs()]: memory in MB, [load] a fraction. *)
Record GPU : Type := {
  gpu_id : Z;
  gpu_name : string;
  memoryTotal : PyFloat.float;
  memoryUsed : PyFloat.float;
  memoryFree : PyFloat.float;
  load : PyFloat.float;
  temperature : PyFloat.float
}.

(** What the host answers when the program asks.  The two flags record
    whether the optional imports at module load succeeded; every call
    either returns or raises.  [psutil.cpu_count] and [psutil.cpu_freq]
    return [None] when the platform cannot tell. *)
Record Env : Type := {
  GPU_AVAILABLE : bool;
  CPUINFO_AVAILABLE : bool;
  platform_uname : result uname_result;
  platform_processor : result string;
  platform_system : result string;
  psutil_cpu_count : bool -> result (option Z);
  psutil_cpu_percent : result PyFloat.float;
  psutil_cpu_freq : result (option scpufreq);
  psutil_virtual_memory : result svmem;
  psutil_disk_usage : string -> result sdiskusage;
  cpuinfo_get_cpu_info : result dict;
  GPUtil_getGPUs : result (list GPU)
}.

(** ** The program *)

Definition bytes_to_gb (bytes_value : Z) : result PyFloat.float :=
  q <- PyFloat.int_truediv bytes_value (1024 ^ 3) ;;
  Ok (PyFloat.round2 q).

Section Program.

Variable env : Env.

Definition get_system_info : result dict :=
  uname <- platform_uname env ;;
  Ok [ ("system_name", VStr (system uname));
       ("node_name", VStr (node uname));
       ("os_release", VStr (release uname));
       ("os_version", VStr (version uname));
       ("machine_type", VStr (machine uname));
       ("processor", VStr (processor uname)) ].

(** The fallback of both the [except] and the [else] branch:
    [cpu_data["processor_name"] = platform.processor() or "Unknown"]. *)
Definition set_platform_processor (cpu_data : dict) : result dict :=
  p <- platform_processor env ;;
  Ok (dict_set cpu_data "processor_name" (VStr (str_or p "Unknown"))).

Definition get_cpu_info : result dict :=
  physical <- psutil_cpu_count env false ;;
  logical <- psutil_cpu_count env true ;;
  usage <- psutil_cpu_percent env ;;
  let cpu_data :=
    [ ("physical_cores", of_optional_int physical);
      ("logical_cores", of_optional_int logical);
      ("cpu_usage_percent", VFloat usage) ] in
  cpu_freq <- psutil_cpu_freq env ;;
  let cpu_data :=
    match cpu_freq with
    | Some f =>
        dict_set cpu_data "cpu_frequency_mhz" (VFloat (PyFloat.round2 (current f)))
    | None => cpu_data
    end in
  if CPUINFO_AVAILABLE env then
    try_except
      (info <- cpuinfo_get_cpu_info env ;;
       Ok (dict_set cpu_data "processor_name"
             (dict_get_default info "brand_raw" (VStr "Unknown"))))
      (fun _ => set_platform_processor cpu_data)
  else set_platform_processor cpu_data.

Definition get_memory_info : result dict :=
  mem <- psutil_virtual_memory env ;;
  total_gb <- bytes_to_gb (mem_total mem) ;;
  available_gb <- bytes_to_gb (mem_available mem) ;;
  used_gb <- bytes_to_gb (mem_used mem) ;;
  Ok [ ("total_gb", VFloat total_gb);
       ("available_gb", VFloat available_gb);
       ("used_gb", VFloat used_gb);
       ("utilization_percent", VFloat (mem_percent mem)) ].

Definition get_disk_info : result dict :=
  try_except
    (sys <- platform_system env ;;
     disk <- (if String.eqb sys "Windows"
              then psutil_disk_usage env "C:\"
              else psutil_disk_usage env "/") ;;
     total_gb <- bytes_to_gb (disk_total disk) ;;
     used_gb <- bytes_to_gb (disk_used disk) ;;
     free_gb <- bytes_to_gb (disk_free disk) ;;
     Ok [ ("total_gb", VFloat total_gb);
          ("used_gb", VFloat used_gb);
          ("free_gb", VFloat free_gb);
          ("utilization_percent", VFloat (disk_percent disk)) ])
    (fun e => Ok [ ("error", VStr (exn_str e)) ]).

(** The dictionary appended for one device in the loop of [get_gpu_info]. *)
Definition gpu_entry (gpu : GPU) : pyval :=
  VDict
    [ ("id", VInt (gpu_id gpu));
      ("name", VStr (gpu_name gpu));
      ("memory_total_mb", VFloat (PyFloat.round2 (memoryTotal gpu)));
      ("memory_used_mb", VFloat (PyFloat.round2 (memoryUsed gpu)));
      ("memory_free_mb", VFloat (PyFloat.round2 (memoryFree gpu)));
      ("gpu_utilization_percent",
        VFloat (PyFloat.fmul (load gpu) (PyFloat.float_of_int 100)));
      ("temperature_c", VFloat (temperature gpu)) ].

Definition get_gpu_info : result pyval :=
  if negb (GPU_AVAILABLE env) then
    Ok (VDict [ ("status", VStr "GPUtil not installed or no NVIDIA GPU detected") ])
  else
    try_except
      (gpus <- GPUtil_getGPUs env ;;
       match gpus with
       | [] => Ok (VDict [ ("status", VStr "No NVIDIA GPU detected") ])
       | _ =>
           let gpu_list :=
             fold_left (fun gpu_list gpu => gpu_list ++ [gpu_entry gpu]) gpus [] in
           Ok (VList gpu_list)
       end)
      (fun e =>
         Ok (VDict [ ("status",
                      VStr (String.append "Error getting GPU info: " (exn_str e))) ])).

Definition get_sysinfo : result dict :=
  system_info <- get_system_info ;;
  cpu_info <- get_cpu_info ;;
  memory_info <- get_memory_info ;;
  disk_info <- get_disk_info ;;
  gpu_info <- get_gpu_info ;;
  Ok [ ("system", VDict system_info);
       ("cpu", VDict cpu_info);
       ("memory", VDict memory_info);
       ("disk", VDict disk_info);
       ("gpu", gpu_info) ].

End Program.

(** ** Vocabulary of the specification *)

(** A call returns (it does not raise). *)
Definition returns {A : Type} (r : result A) : Prop := exists a, r = Ok a.

(** A byte counter as the operating system reports it: an unsigned
    64-bit quantity. *)
Definition byte_count (n : Z) : Prop := 0 <= n < 2 ^ 64.

(** The root volume by platform convention. *)
Definition root_volume (sys : string) : string :=
  if String.eqb sys "Windows" then "C:\" else "/".

(** The specification's byte-to-gigabyte conversion: the exact quotient
    [n / 1024^3] rounded to two decimals (ties to even), as the float
    that denotes this decimal. *)
Definition bytes_to_gb_spec (n : Z) : PyFloat.float :=
  PyFloat.decimal2 false (PyFloat.div_half_even (n * 100) (1024 ^ 3)).

(** [y] is [x] rounded to two decimal places: for a finite [x] of
    magnitude [num / den], [y] denotes a decimal [k / 100] of the same
    sign with [|k / 100 - num / den| <= 1 / 200]; a zero, an infinity or
    a NaN is left as it is. *)
Definition rounded_to_2_decimals (x y : PyFloat.float) : Prop :=
  match x with
  | S754_finite s m e =>
      exists k : Z,
        y = PyFloat.decimal2 s k /\
        0 <= k /\
        Z.abs (2 * (k * PyFloat.denominator e - 100 * PyFloat.numerator m e))
          <= PyFloat.denominator e
  | _ => y = x
  end.

(** The processor name can be resolved: the platform answers, or the
    optional source is installed and answers. *)
Definition processor_name_resolves (env : Env) : Prop :=
  returns (platform_processor env) \/
  (CPUINFO_AVAILABLE env = true /\ returns (cpuinfo_get_cpu_info env)).

(** The data sources the program does not guard all answer. *)
Definition unguarded_sources_return (env : Env) : Prop :=
  returns (platform_uname env) /\
  returns (psutil_cpu_count env false) /\
  returns (psutil_cpu_count env true) /\
  returns (psutil_cpu_percent env) /\
  returns (psutil_cpu_freq env) /\
  processor_name_resolves env /\
  exists mem, psutil_virtual_memory env = Ok mem /\
    byte_count (mem_total mem) /\ byte_count (mem_available mem) /\
    byte_count (mem_used mem).

(** The CPU record once every field is written: the three counters, the
    frequency when the platform exposes one, and the processor name. *)
Definition cpu_record (physical logical : option Z) (usage : PyFloat.float)
    (cpu_freq : option scpufreq) (name : pyval) : dict :=
  [ ("physical_cores", of_optional_int physical);
    ("logical_cores", of_optional_int logical);
    ("cpu_usage_percent", VFloat usage) ]
    ++ match cpu_freq with
       | Some f => [ ("cpu_frequency_mhz", VFloat (PyFloat.round2 (current f))) ]
       | None => []
       end
    ++ [ ("processor_name", name) ].

(** The only shape of a degraded result: one sentinel key holding text. *)
Definition sentinel (key : string) (d : dict) : Prop :=
  exists text : string, d = [ (key, VStr text) ].

(** The field names of the snapshot and of its parts, as the program
    writes them. *)
Definition snapshot_keys : list string :=
  [ "system"; "cpu"; "memory"; "disk"; "gpu" ].
Definition system_keys : list string :=
  [ "system_name"; "node_name"; "os_release"; "os_version"; "machine_type";
    "processor" ].
Definition cpu_keys (with_frequency : bool) : list string :=
  [ "physical_cores"; "logical_cores"; "cpu_usage_percent" ]
    ++ (if with_frequency then [ "cpu_frequency_mhz" ] else [])
    ++ [ "processor_name" ].
Definition memory_keys : list string :=
  [ "total_gb"; "available_gb"; "used_gb"; "utilization_percent" ].
Definition disk_keys : list string :=
  [ "total_gb"; "used_gb"; "free_gb"; "utilization_percent" ].
Definition gpu_entry_keys : list string :=
  [ "id"; "name"; "memory_total_mb"; "memory_used_mb"; "memory_free_mb";
    "gpu_utilization_percent"; "temperature_c" ].

(** ** Example hosts *)

Definition example_uname : uname_result :=
  {| system := "Linux"; node := "build-01"; release := "6.1.0";
     version := "#1 SMP"; machine := "x86_64"; processor := "x86_64" |}.

(** 2400.123 MHz, between 800 and 3600. *)
Definition example_freq : scpufreq :=
  {| current := PyFloat.fdiv (PyFloat.int_operand 2400123) (PyFloat.int_operand 1000);
     freq_min := PyFloat.float_of_int 800;
     freq_max := PyFloat.float_of_int 3600 |}.

(** 16 GiB of memory, 10 GiB available. *)
Definition example_memory : svmem :=
  {| mem_total := 17179869184; mem_available := 10737418240;
     mem_used := 6000000000; mem_percent := PyFloat.decimal2 false 3750 |}.

(** A 500 GB volume. *)
Definition example_disk : sdiskusage :=
  {| disk_total := 500107862016; disk_used := 200000000000;
     disk_free := 300107862016; disk_percent := PyFloat.decimal2 false 4000 |}.

(** A device with 8192 MB, 1234.567 MB used, load 0.37, 61 degrees. *)
Definition example_gpu : GPU :=
  {| gpu_id := 0; gpu_name := "GeForce";
     memoryTotal := PyFloat.float_of_int 8192;
     memoryUsed := PyFloat.fdiv (PyFloat.int_operand 1234567) (PyFloat.int_operand 1000);
     memoryFree := PyFloat.fdiv (PyFloat.int_operand 6957433) (PyFloat.int_operand 1000);
     load := PyFloat.decimal2 false 37;
     temperature := PyFloat.float_of_int 61 |}.

Definition os_error (text : string) : exn := Exn "OSError" text.

(** A host described by what varies between the examples; the identity
    and the CPU utilization always answer. *)
Definition host (gpu_available cpuinfo_available : bool)
    (cores : option Z) (freq : option scpufreq)
    (memory : result svmem) (disk : result sdiskusage)
    (info : result dict) (gpus : result (list GPU)) : Env :=
  {| GPU_AVAILABLE := gpu_available;
     CPUINFO_AVAILABLE := cpuinfo_available;
     platform_uname := Ok example_uname;
     platform_processor := Ok "x86_64";
     platform_system := Ok "Linux";
     psutil_cpu_count := fun logical =>
       Ok (if logical then option_map (Z.mul 2) cores else cores);
     psutil_cpu_percent := Ok (PyFloat.decimal2 false 1250);
     psutil_cpu_freq := Ok freq;
     psutil_virtual_memory := memory;
     psutil_disk_usage := fun path =>
       if String.eqb path "/" then disk else Raise (os_error "No such file or directory");
     cpuinfo_get_cpu_info := info;
     GPUtil_getGPUs := gpus |}.

Definition not_imported {A : Type} (module : string) : result A :=
  Raise (Exn "NameError" (String.append module " is not defined")).

(** A Linux machine without the two optional packages. *)
Definition plain_host : Env :=
  host false false (Some 4) (Some example_freq) (Ok example_memory)
       (Ok example_disk) (not_imported "cpuinfo") (not_imported "GPUtil").

(** The same machine when the memory counters cannot be read. *)
Definition host_memory_unreadable : Env :=
  host false false (Some 4) (Some example_freq)
       (Raise (os_error "cannot read /proc/meminfo"))
       (Ok example_disk) (not_imported "cpuinfo") (not_imported "GPUtil").

(** The same machine when the core counts are undetermined. *)
Definition host_cores_unknown : Env :=
  host false false None (Some example_freq) (Ok example_memory)
       (Ok example_disk) (not_imported "cpuinfo") (not_imported "GPUtil").

(** The same machine when the root volume cannot be read. *)
Definition host_disk_unreadable : Env :=
  host false false (Some 4) None (Ok example_memory)
       (Raise (os_error "Permission denied"))
       (not_imported "cpuinfo") (not_imported "GPUtil").

(** A machine with both optional packages and one device. *)
Definition gpu_host : Env :=
  host true true (Some 8) (Some example_freq) (Ok example_memory)
       (Ok example_disk)
       (Ok [ ("brand_raw", VStr "AMD Ryzen 7") ])
       (Ok [ example_gpu ]).

(** GPUtil is installed but finds no device. *)
Definition host_no_device : Env :=
  host true true (Some 8) None (Ok example_memory) (Ok example_disk)
       (Ok [ ("arch", VStr "X86_64") ]) (Ok []).

(** GPUtil is installed and the enumeration fails; so does cpuinfo. *)
Definition host_gpu_failing : Env :=
  host true true (Some 8) None (Ok example_memory) (Ok example_disk)
       (Raise (Exn "RuntimeError" "cpuid unavailable"))
       (Raise (Exn "FileNotFoundError" "nvidia-smi not found")).

(** ** Further vocabulary and hosts *)

(** A byte count in hundredths of a gigabyte: the exact quotient by
    [1024^3], rounded to the nearest hundredth, ties to even. *)
Definition gb_hundredths (n : Z) : Z := PyFloat.div_half_even (n * 100) (1024 ^ 3).

(** The four-field record of a successful disk query. *)
Definition disk_record (total_gb used_gb free_gb percent : PyFloat.float) : dict :=
  [ ("total_gb", VFloat total_gb); ("used_gb", VFloat used_gb);
    ("free_gb", VFloat free_gb); ("utilization_percent", VFloat percent) ].

(** The four-field record of the memory query. *)
Definition memory_record (total_gb available_gb used_gb percent : PyFloat.float)
  : dict :=
  [ ("total_gb", VFloat total_gb); ("available_gb", VFloat available_gb);
    ("used_gb", VFloat used_gb); ("utilization_percent", VFloat percent) ].

(** The three status texts of the GPU query. *)
Definition status_not_installed : string :=
  "GPUtil not installed or no NVIDIA GPU detected".
Definition status_no_device : string := "No NVIDIA GPU detected".
Definition status_error (e : exn) : string :=
  String.append "Error getting GPU info: " (exn_str e).

(** Where a rounded mantissa ends up: 53 bits, at the exponent it was
    given or one above. *)
Definition settled (s : bool) (e : Z) (x : PyFloat.float) : Prop :=
  exists m e', x = S754_finite s m e' /\ Zpos (digits2_pos m) = 53 /\ e <= e' <= e + 1.

(** A plain host on which [platform.processor()] fails, with and
    without an answering cpuinfo. *)
Definition host_without_platform_name (cpuinfo_available : bool)
    (info : result dict) : Env :=
  {| GPU_AVAILABLE := false;
     CPUINFO_AVAILABLE := cpuinfo_available;
     platform_uname := Ok example_uname;
     platform_processor := Raise (os_error "uname failed");
     platform_system := Ok "Linux";
     psutil_cpu_count := fun _ => Ok (Some 2);
     psutil_cpu_percent := Ok (PyFloat.decimal2 false 333);
     psutil_cpu_freq := Ok None;
     psutil_virtual_memory := Ok example_memory;
     psutil_disk_usage := fun _ => Ok example_disk;
     cpuinfo_get_cpu_info := info;
     GPUtil_getGPUs := not_imported "GPUtil" |}.

(** A Windows machine: only the volume [C:\] can be read. *)
Definition windows_host : Env :=
  {| GPU_AVAILABLE := false;
     CPUINFO_AVAILABLE := false;
     platform_uname := Ok example_uname;
     platform_processor := Ok "Intel64 Family 6";
     platform_system := Ok "Windows";
     psutil_cpu_count := fun _ => Ok (Some 2);
     psutil_cpu_percent := Ok (PyFloat.decimal2 false 333);
     psutil_cpu_freq := Ok None;
     psutil_virtual_memory := Ok example_memory;
     psutil_disk_usage := fun path =>
       if String.eqb path "C:\" then Ok example_disk
       else Raise (os_error "The system cannot find the path specified");
     cpuinfo_get_cpu_info := not_imported "cpuinfo";
     GPUtil_getGPUs := not_imported "GPUtil" |}.

(** Another Windows machine: every path is readable, and all its other
    sources answer differently. *)
Definition windows_host_all_paths : Env :=
  {| GPU_AVAILABLE := true;
     CPUINFO_AVAILABLE := true;
     platform_uname := Raise (os_error "uname failed");
     platform_processor := Ok "Intel64 Family 6";
     platform_system := Ok "Windows";
     psutil_cpu_count := fun _ => Ok None;
     psutil_cpu_percent := Ok PyFloat.zero;
     psutil_cpu_freq := Ok None;
     psutil_virtual_memory := Raise (os_error "no counters");
     psutil_disk_usage := fun _ => Ok example_disk;
     cpuinfo_get_cpu_info := Ok [];
     GPUtil_getGPUs := Ok [] |}.

(** [gb] is the byte count [n] converted to gigabytes and rounded to two
    decimals, as far as floats allow: it is the binary64 quotient
    [n / 1024^3] rounded to two decimals, and below [2^53] bytes, where
    that quotient is exact, it is the exact quotient rounded to two
    decimals. *)
Definition converted_to_gb (n : Z) (gb : PyFloat.float) : Prop :=
  (exists quotient,
     PyFloat.int_truediv n (1024 ^ 3) = Ok quotient
     /\ rounded_to_2_decimals quotient gb)
  /\ (n < 2 ^ 53 -> gb = bytes_to_gb_spec n).

(** A root volume of 8 PiB and a little: [2^53 + 2^27 + 1] bytes, of
    which [2^53] are used. *)
Definition large_volume : sdiskusage :=
  {| disk_total := 2 ^ 53 + 2 ^ 27 + 1; disk_used := 2 ^ 53;
     disk_free := 2 ^ 27 + 1; disk_percent := PyFloat.float_of_int 100 |}.

(** The plain host with that volume mounted as its root. *)
Definition host_with_large_volume : Env :=
  host false false (Some 4) (Some example_freq) (Ok example_memory)
       (Ok large_volume) (not_imported "cpuinfo") (not_imported "GPUtil").

(** ** Facts about the float model *)

Module PyFloatFacts.
Import PyFloat.

Lemma digits2_pos_bounds (p : positive) :
  2 ^ (Zpos (digits2_pos p) - 1) <= Zpos p < 2 ^ Zpos (digits2_pos p).
Proof.
  induction p as [p IH | p IH | ]; cbn [digits2_pos].
  - rewrite Pos2Z.inj_succ, (Pos2Z.inj_xI p).
    replace (Z.succ (Zpos (digits2_pos p)) - 1)
      with (Z.succ (Zpos (digits2_pos p) - 1)) by lia.
    rewrite !Z.pow_succ_r by lia. lia.
  - rewrite Pos2Z.inj_succ, (Pos2Z.inj_xO p).
    replace (Z.succ (Zpos (digits2_pos p)) - 1)
      with (Z.succ (Zpos (digits2_pos p) - 1)) by lia.
    rewrite !Z.pow_succ_r by lia. lia.
  - cbn. lia.
Qed.

Lemma digits2_pos_unique (p : positive) (d : Z) :
  2 ^ (d - 1) <= Zpos p < 2 ^ d -> Zpos (digits2_pos p) = d.
Proof.
  intros [Hlo Hhi].
  destruct (digits2_pos_bounds p) as [Blo Bhi].
  assert (0 < d).
  { destruct (Z.ltb_spec 0 d) as [|Hd]; [assumption|].
    assert (2 ^ d <= 1); [|lia].
    destruct (Z.ltb_spec d 0).
    - rewrite Z.pow_neg_r by assumption. lia.
    - replace d with 0 by lia. cbn. lia. }
  assert (Zpos (digits2_pos p) - 1 < d).
  { apply (Z.pow_lt_mono_r_iff 2); lia. }
  assert (d - 1 < Zpos (digits2_pos p)).
  { apply (Z.pow_lt_mono_r_iff 2); lia. }
  lia.
Qed.

Lemma digits2_pos_le (p : positive) (d : Z) :
  0 <= d -> Zpos p < 2 ^ d -> Zpos (digits2_pos p) <= d.
Proof.
  intros Hd Hp.
  destruct (digits2_pos_bounds p) as [Blo _].
  assert (Zpos (digits2_pos p) - 1 < d); [|lia].
  apply (Z.pow_lt_mono_r_iff 2); lia.
Qed.

Lemma div_eucl_mul (a b : Z) : 0 < b -> Z.div_eucl (a * b) b = (a, 0).
Proof.
  intros Hb.
  pose proof (Z.div_mul a b) as Hq.
  pose proof (Z.mod_mul a b) as Hr.
  unfold Z.div, Z.modulo in Hq, Hr.
  destruct (Z.div_eucl (a * b) b) as [q r].
  rewrite Hq, Hr by lia. reflexivity.
Qed.

Lemma div_half_even_scale (a b c : Z) :
  0 < b -> 0 < c -> div_half_even (a * c) (b * c) = div_half_even a b.
Proof.
  intros Hb Hc. unfold div_half_even.
  rewrite Z.div_mul_cancel_r by lia.
  rewrite Z.mul_mod_distr_r by lia.
  replace (2 * (a mod b * c)) with (2 * (a mod b) * c) by lia.
  rewrite <- (Zmult_compare_compat_r (2 * (a mod b)) b c) by lia.
  reflexivity.
Qed.

(** [div_half_even] returns a nearest integer: it is within one half
    of the exact quotient. *)
Lemma div_half_even_nearest (num den : Z) :
  0 < den ->
  Z.abs (2 * (div_half_even num den * den - num)) <= den.
Proof.
  intros Hd. unfold div_half_even.
  pose proof (Z.div_mod num den) as E.
  pose proof (Z.mod_pos_bound num den Hd) as B.
  destruct (Z.compare_spec (2 * (num mod den)) den);
    [destruct (Z.even (num / den))| |]; nia.
Qed.

Lemma hundredths_neg (m : positive) (e : Z) :
  e < 0 -> hundredths m e = div_half_even (Zpos m * 100) (2 ^ (- e)).
Proof.
  destruct e; try lia. intros _. reflexivity.
Qed.

Lemma round_aux_finish (s : bool) (m e : Z) (l : location) :
  binary_round_aux prec emax s m e l =
  let '(mrs, e') := shr_fexp prec emax m e l in
  round_finish s (round_nearest_even (shr_m mrs) (loc_of_shr_record mrs)) e'.
Proof.
  unfold binary_round_aux, round_finish.
  destruct (shr_fexp prec emax m e l) as [mrs e']. reflexivity.
Qed.

(** A mantissa of 53 bits is kept as it is. *)
Lemma round_finish_53 (s : bool) (q : positive) (e : Z) :
  Zpos (digits2_pos q) = 53 -> -1074 <= e <= 971 ->
  round_finish s (Zpos q) e = S754_finite s q e.
Proof.
  intros Hq He.
  unfold round_finish, shr_fexp, fexp, emin, prec, emax.
  cbn [Zdigits2 shr_record_of_loc].
  rewrite Hq.
  replace (Z.max (53 + e - 53) (3 - 1024 - 53) - e) with 0 by lia.
  cbn [shr shr_m].
  destruct (Z.leb_spec e (1024 - 53)); [reflexivity | lia].
Qed.

(** An even mantissa of 54 bits loses its last bit. *)
Lemma round_finish_54_even (s : bool) (q : positive) (e : Z) :
  Zpos (digits2_pos q) = 53 -> -1075 <= e <= 970 ->
  round_finish s (Zpos q~0) e = S754_finite s q (e + 1).
Proof.
  intros Hq He.
  unfold round_finish, shr_fexp, fexp, emin, prec, emax.
  cbn [Zdigits2 digits2_pos shr_record_of_loc].
  rewrite Pos2Z.inj_succ, Hq.
  replace (Z.max (Z.succ 53 + e - 53) (3 - 1024 - 53) - e) with 1 by lia.
  cbn [shr iter_pos shr_1 shr_m].
  destruct (Z.leb_spec (e + 1) (1024 - 53)); [reflexivity | lia].
Qed.

(** A 53-bit mantissa rounded up by one stays a finite float. *)
Lemma round_finish_53_succ (s : bool) (q : positive) (e : Z) :
  Zpos (digits2_pos q) = 53 -> -1074 <= e <= 970 ->
  exists m' e', round_finish s (Zpos (q + 1)) e = S754_finite s m' e'.
Proof.
  intros Hq He.
  pose proof (digits2_pos_bounds q) as B. rewrite Hq in B.
  destruct (Z.ltb_spec (Zpos (q + 1)) (2 ^ 53)) as [Hlt | Hge].
  - exists (q + 1)%positive, e. apply round_finish_53; [|lia].
    apply digits2_pos_unique. lia.
  - assert (Hp : (q + 1)%positive = 4503599627370496~0%positive).
    { apply Pos2Z.inj. change (Zpos 4503599627370496~0) with (2 ^ 53). lia. }
    rewrite Hp. exists 4503599627370496%positive, (e + 1).
    apply round_finish_54_even; [reflexivity | lia].
Qed.

(** The first step of [binary_round_aux] on a mantissa of 54 bits drops
    exactly one bit. *)
Lemma shr_fexp_54 (p : positive) (e : Z) (l : location) :
  Zpos (digits2_pos p) = 54 -> -1075 <= e ->
  shr_fexp prec emax (Zpos p) e l = (shr_1 (shr_record_of_loc (Zpos p) l), e + 1).
Proof.
  intros Hp He.
  unfold shr_fexp, fexp, emin, prec, emax. cbn [Zdigits2]. rewrite Hp.
  replace (Z.max (54 + e - 53) (3 - 1024 - 53) - e) with 1 by lia.
  reflexivity.
Qed.

(** Rounding a 54-bit mantissa whose dropped bit is zero: the result
    is the 53-bit mantissa itself, one exponent up. *)
Lemma round_aux_54_exact (s : bool) (q : positive) (e : Z) :
  Zpos (digits2_pos q) = 53 -> -1075 <= e <= 970 ->
  binary_round_aux prec emax s (Zpos q~0) e loc_Exact = S754_finite s q (e + 1).
Proof.
  intros Hq He.
  rewrite round_aux_finish, shr_fexp_54; [| cbn [digits2_pos]; lia | lia].
  cbn [shr_record_of_loc shr_1 orb shr_m loc_of_shr_record round_nearest_even].
  apply round_finish_53; [assumption | lia].
Qed.

(** Rounding any 54-bit mantissa, whatever lies beyond it, gives a finite
    float: neither an infinity nor a zero. *)
Lemma round_aux_54_finite (s : bool) (p : positive) (e : Z) (l : location) :
  Zpos (digits2_pos p) = 54 -> -1075 <= e <= 969 ->
  exists m' e', binary_round_aux prec emax s (Zpos p) e l = S754_finite s m' e'.
Proof.
  intros Hp He.
  rewrite round_aux_finish, shr_fexp_54 by (assumption || lia).
  assert (Hkeep : forall q, Zpos (digits2_pos q) = 53 ->
            exists m' e', round_finish s (Zpos q) (e + 1) = S754_finite s m' e').
  { intros q Hq. exists q, (e + 1). apply round_finish_53; [assumption | lia]. }
  assert (Hsucc : forall q, Zpos (digits2_pos q) = 53 ->
            exists m' e', round_finish s (Zpos q + 1) (e + 1) = S754_finite s m' e').
  { intros q Hq. apply round_finish_53_succ; [assumption | lia]. }
  destruct p as [q | q | ]; cbn [digits2_pos] in Hp; [| | discriminate];
    rewrite Pos2Z.inj_succ in Hp; assert (Hq : Zpos (digits2_pos q) = 53) by lia;
    destruct l as [ | [ | | ] ];
    cbn [shr_record_of_loc shr_1 orb shr_m loc_of_shr_record round_nearest_even];
    try destruct (Z.even (Zpos q)); auto.
Qed.

(** *** The model on values Python programmers know *)

(** [round(0.125, 2)] is 0.12 and [round(0.375, 2)] is 0.38: exact ties
    go to the even hundredth. *)
Example round2_ties_to_even :
  round2 (fdiv (int_operand 1) (int_operand 8)) = decimal2 false 12
  /\ round2 (fdiv (int_operand 3) (int_operand 8)) = decimal2 false 38.
Proof. split; vm_compute; reflexivity. Qed.

(** [round(2.675, 2)] is 2.67: the float nearest to 2.675 lies below it. *)
Example round2_of_2_675 :
  round2 (fdiv (int_operand 2675) (int_operand 1000)) = decimal2 false 267.
Proof. vm_compute. reflexivity. Qed.

(** [round(-0.001, 2)] is [-0.0]. *)
Example round2_keeps_the_sign_of_zero :
  round2 (fdiv (int_operand (-1)) (int_operand 1000)) = S754_zero true.
Proof. vm_compute. reflexivity. Qed.

(** [0.07 * 100] is 7.000000000000001, the float after 7. *)
Example fmul_is_rounded :
  fmul (decimal2 false 7) (float_of_int 100) = S754_finite false 7881299347898369 (-50).
Proof. vm_compute. reflexivity. Qed.

(** *** Division of an integer by [1024 ** 3] *)

(** The quotient [SFdiv] hands to the rounding when an integer below
    [2^84] is divided by [2^30]: the dividend is scaled to 84 bits, so
    the integer quotient has 54. *)
Lemma div_core_gib (n : positive) :
  Zpos (digits2_pos n) <= 84 ->
  SFdiv_core_binary prec emax (Zpos n) 0 (Zpos 1073741824) 0 =
  ((Zpos n * 2 ^ (84 - Zpos (digits2_pos n))) / 2 ^ 30,
   Zpos (digits2_pos n) - 84,
   new_location (2 ^ 30) ((Zpos n * 2 ^ (84 - Zpos (digits2_pos n))) mod 2 ^ 30)).
Proof.
  intros Hd.
  unfold SFdiv_core_binary, fexp, emin, prec, emax.
  cbn [Zdigits2].
  change (Zpos (digits2_pos 1073741824)) with 31.
  set (d := Zpos (digits2_pos n)) in *.
  assert (0 < d) by (subst d; lia).
  replace (Z.min (Z.max (d + 0 - (31 + 0) - 53) (3 - 1024 - 53)) (0 - 0))
    with (d - 84) by lia.
  replace (0 - 0 - (d - 84)) with (84 - d) by lia.
  assert (Hm : match 84 - d with
               | 0 => Zpos n
               | Zpos _ => Z.shiftl (Zpos n) (84 - d)
               | Zneg _ => 0
               end = Zpos n * 2 ^ (84 - d)).
  { destruct (84 - d) eqn:E; try lia.
    rewrite Z.shiftl_mul_pow2 by lia. reflexivity. }
  rewrite Hm.
  change (Zpos 1073741824) with (2 ^ 30).
  unfold Z.div, Z.modulo.
  destruct (Z.div_eucl (Zpos n * 2 ^ (84 - d)) (2 ^ 30)) as [q r].
  reflexivity.
Qed.

Lemma scaled_quotient_bounds (n : positive) :
  Zpos (digits2_pos n) <= 84 ->
  2 ^ 53 <= (Zpos n * 2 ^ (84 - Zpos (digits2_pos n))) / 2 ^ 30 < 2 ^ 54.
Proof.
  intros Hd.
  pose proof (digits2_pos_bounds n) as [Blo Bhi].
  set (d := Zpos (digits2_pos n)) in *.
  assert (0 < d) by (subst d; lia).
  assert (Hs : 0 < 2 ^ (84 - d)) by (apply Z.pow_pos_nonneg; lia).
  assert (Hlo : 2 ^ 83 <= Zpos n * 2 ^ (84 - d)).
  { replace 83 with ((d - 1) + (84 - d)) by lia.
    rewrite Z.pow_add_r by lia. nia. }
  assert (Hhi : Zpos n * 2 ^ (84 - d) < 2 ^ 84).
  { replace 84 with (d + (84 - d)) at 2 by lia.
    rewrite Z.pow_add_r by lia. nia. }
  split.
  - apply Z.div_le_lower_bound; [reflexivity|].
    change (2 ^ 30 * 2 ^ 53) with (2 ^ 83). assumption.
  - apply Z.div_lt_upper_bound; [reflexivity|].
    change (2 ^ 30 * 2 ^ 54) with (2 ^ 84). assumption.
Qed.

(** Dividing an integer below [2^84] by [2^30] never overflows (nor
    underflows): the quotient is a finite float. *)
Lemma fdiv_gib_finite (s : bool) (n : positive) :
  Zpos n < 2 ^ 84 ->
  exists m e,
    fdiv (S754_finite s n 0) (S754_finite false 1073741824 0) = S754_finite s m e.
Proof.
  intros Hn.
  assert (Hd : Zpos (digits2_pos n) <= 84) by (apply digits2_pos_le; lia).
  unfold fdiv, SFdiv. rewrite (div_core_gib n Hd).
  pose proof (scaled_quotient_bounds n Hd) as Hq.
  destruct (Zpos n * 2 ^ (84 - Zpos (digits2_pos n)) / 2 ^ 30) as [ | q | q ] eqn:E;
    try (exfalso; lia).
  replace (xorb s false) with s by (destruct s; reflexivity).
  apply round_aux_54_finite; [|lia].
  apply digits2_pos_unique. change (54 - 1) with 53. lia.
Qed.

(** Below [2^53] the division is exact: the float holds [n / 2^30]
    itself, with [n] shifted up to a mantissa of 53 bits. *)
Lemma fdiv_gib_exact (n : positive) :
  Zpos n < 2 ^ 53 ->
  fdiv (S754_finite false n 0) (S754_finite false 1073741824 0) =
  S754_finite false (Z.to_pos (Zpos n * 2 ^ (53 - Zpos (digits2_pos n))))
              (Zpos (digits2_pos n) - 83).
Proof.
  intros Hn.
  assert (Hd : Zpos (digits2_pos n) <= 53) by (apply digits2_pos_le; lia).
  unfold fdiv, SFdiv. rewrite (div_core_gib n) by lia.
  pose proof (digits2_pos_bounds n) as [Blo Bhi].
  set (d := Zpos (digits2_pos n)) in *.
  assert (0 < d) by (subst d; lia).
  assert (Hs : 0 < 2 ^ (53 - d)) by (apply Z.pow_pos_nonneg; lia).
  set (q := Z.to_pos (Zpos n * 2 ^ (53 - d))).
  assert (Hq : Zpos q = Zpos n * 2 ^ (53 - d)) by (subst q; apply Z2Pos.id; lia).
  assert (Hscale : Zpos n * 2 ^ (84 - d) = Zpos q~0 * 2 ^ 30).
  { rewrite (Pos2Z.inj_xO q), Hq.
    replace (84 - d) with ((53 - d) + 1 + 30) by lia.
    rewrite !Z.pow_add_r by lia. change (2 ^ 1) with 2. lia. }
  rewrite Hscale, Z.div_mul, Z.mod_mul by discriminate.
  change (new_location (2 ^ 30) 0) with loc_Exact. cbn [xorb].
  replace (d - 83) with (d - 84 + 1) by lia.
  apply round_aux_54_exact; [|lia].
  apply digits2_pos_unique. rewrite Hq. change (53 - 1) with 52.
  split.
  - replace 52 with ((d - 1) + (53 - d)) by lia. rewrite Z.pow_add_r by lia. nia.
  - replace 53 with (d + (53 - d)) at 2 by lia. rewrite Z.pow_add_r by lia. nia.
Qed.

Lemma div_half_even_nonneg (num den : Z) :
  0 <= num -> 0 < den -> 0 <= div_half_even num den.
Proof.
  intros Hn Hd. unfold div_half_even.
  pose proof (Z.div_pos num den Hn Hd).
  destruct (2 * (num mod den) ?= den); [destruct (Z.even (num / den))| |]; lia.
Qed.

(** [round2] rounds to two decimal places. *)
Lemma round2_rounds (x : float) : rounded_to_2_decimals x (round2 x).
Proof.
  destruct x as [s | s | | s m e]; cbn [rounded_to_2_decimals round2];
    try reflexivity.
  exists (hundredths m e). split; [reflexivity|].
  unfold numerator, denominator.
  destruct e as [ | p | p ].
  - cbn [hundredths]. change (Z.max 0 (- 0)) with 0. change (Z.max 0 0) with 0.
    change (2 ^ 0) with 1. lia.
  - cbn [hundredths]. replace (Z.max 0 (- Zpos p)) with 0 by lia.
    replace (Z.max 0 (Zpos p)) with (Zpos p) by lia.
    change (2 ^ 0) with 1.
    assert (0 < 2 ^ Zpos p) by (apply Z.pow_pos_nonneg; lia).
    split; [nia|].
    replace (2 * (Zpos m * 100 * 2 ^ Zpos p * 1 - 100 * (Zpos m * 2 ^ Zpos p)))
      with 0 by lia.
    cbn. lia.
  - rewrite hundredths_neg by lia.
    replace (Z.max 0 (- Zneg p)) with (- Zneg p) by lia.
    replace (Z.max 0 (Zneg p)) with 0 by lia.
    change (2 ^ 0) with 1.
    assert (Hden : 0 < 2 ^ (- Zneg p)) by (apply Z.pow_pos_nonneg; lia).
    split; [apply div_half_even_nonneg; lia|].
    pose proof (div_half_even_nearest (Zpos m * 100) (2 ^ (- Zneg p)) Hden).
    replace (100 * (Zpos m * 1)) with (Zpos m * 100) by lia. assumption.
Qed.

(** [n / 1024 ** 3] returns for every counter the system can report. *)
Lemma int_truediv_gib_returns (n : Z) :
  0 <= n < 2 ^ 84 ->
  n = 0 /\ int_truediv n (1024 ^ 3) = Ok (S754_zero false) \/
  exists m e, int_truediv n (1024 ^ 3) = Ok (S754_finite false m e).
Proof.
  intros Hn. unfold int_truediv.
  change (1024 ^ 3 =? 0) with false. cbv iota.
  change (int_operand (1024 ^ 3)) with (S754_finite false 1073741824 0).
  destruct n as [ | p | p ]; [left | right | lia].
  - split; reflexivity.
  - cbn [int_operand].
    destruct (fdiv_gib_finite false p ltac:(lia)) as (m & e & E).
    exists m, e. rewrite E. reflexivity.
Qed.

(** Below [2^53] the quotient is computed without error. *)
Lemma int_truediv_gib_exact (n : positive) :
  Zpos n < 2 ^ 53 ->
  int_truediv (Zpos n) (1024 ^ 3) =
  Ok (S754_finite false (Z.to_pos (Zpos n * 2 ^ (53 - Zpos (digits2_pos n))))
                  (Zpos (digits2_pos n) - 83)).
Proof.
  intros Hn. unfold int_truediv.
  change (1024 ^ 3 =? 0) with false. cbv iota.
  change (int_operand (1024 ^ 3)) with (S754_finite false 1073741824 0).
  cbn [int_operand]. rewrite (fdiv_gib_exact n Hn). reflexivity.
Qed.

End PyFloatFacts.

(** ** Facts about the program *)

Lemma bytes_to_gb_returns (n : Z) :
  0 <= n < 2 ^ 84 -> exists gb, bytes_to_gb n = Ok gb.
Proof.
  intros Hn. unfold bytes_to_gb.
  destruct (PyFloatFacts.int_truediv_gib_returns n Hn) as [[_ E] | (m & e & E)];
    rewrite E; cbn [bind]; eauto.
Qed.

Lemma byte_count_returns (n : Z) : byte_count n -> exists gb, bytes_to_gb n = Ok gb.
Proof.
  intros [Hlo Hhi]. apply bytes_to_gb_returns.
  assert (2 ^ 64 < 2 ^ 84) by reflexivity. lia.
Qed.

(** Far beyond any counter the quotient leaves the float range and the
    division raises, as Python's does. *)
Example bytes_to_gb_overflows :
  bytes_to_gb (2 ^ 1100) =
  Raise (Exn "OverflowError" "integer division result too large for a float").
Proof. vm_compute. reflexivity. Qed.

(** Below [2^53] bytes the program computes what the specification asks
    for: no rounding happens before the rounding to two decimals. *)
Lemma bytes_to_gb_meets_spec (n : Z) :
  0 <= n < 2 ^ 53 -> bytes_to_gb n = Ok (bytes_to_gb_spec n).
Proof.
  intros Hn. destruct n as [ | p | p ]; [reflexivity | | lia].
  unfold bytes_to_gb, bytes_to_gb_spec.
  rewrite PyFloatFacts.int_truediv_gib_exact by lia.
  cbn [bind PyFloat.round2]. f_equal. f_equal.
  assert (Hd : Zpos (digits2_pos p) <= 53) by (apply PyFloatFacts.digits2_pos_le; lia).
  set (d := Zpos (digits2_pos p)) in *.
  assert (0 < d) by (subst d; lia).
  assert (Hs : 0 < 2 ^ (53 - d)) by (apply Z.pow_pos_nonneg; lia).
  rewrite PyFloatFacts.hundredths_neg by lia.
  rewrite Z2Pos.id by lia.
  replace (- (d - 83)) with (30 + (53 - d)) by lia.
  rewrite Z.pow_add_r by lia.
  replace (Zpos p * 2 ^ (53 - d) * 100) with (Zpos p * 100 * 2 ^ (53 - d)) by lia.
  rewrite PyFloatFacts.div_half_even_scale by (reflexivity || assumption).
  reflexivity.
Qed.

(** Every byte counter of the system is converted: the function
    returns, and what it returns is the quotient rounded to two
    decimals. *)
Lemma byte_count_converted (n : Z) :
  byte_count n -> exists gb, bytes_to_gb n = Ok gb /\ converted_to_gb n gb.
Proof.
  intros [Hlo Hhi].
  assert (H84 : 0 <= n < 2 ^ 84).
  { assert (2 ^ 64 < 2 ^ 84) by reflexivity. lia. }
  unfold bytes_to_gb, converted_to_gb.
  assert (Hq : exists quotient, PyFloat.int_truediv n (1024 ^ 3) = Ok quotient).
  { destruct (PyFloatFacts.int_truediv_gib_returns n H84) as [[_ E] | (m & e & E)];
      eauto. }
  destruct Hq as [quotient Hq]. rewrite Hq. cbn [bind].
  exists (PyFloat.round2 quotient). split; [reflexivity|]. split.
  - exists quotient. split; [reflexivity | apply PyFloatFacts.round2_rounds].
  - intros H53.
    pose proof (bytes_to_gb_meets_spec n (conj Hlo H53)) as Hspec.
    unfold bytes_to_gb in Hspec. rewrite Hq in Hspec. cbn [bind] in Hspec.
    injection Hspec as Hspec. exact Hspec.
Qed.

(** The loop of [get_gpu_info] appends one entry per device. *)
Lemma append_entries (gpus : list GPU) (acc : list pyval) :
  fold_left (fun gpu_list gpu => gpu_list ++ [gpu_entry gpu]) gpus acc =
  acc ++ map gpu_entry gpus.
Proof.
  revert acc. induction gpus as [ | gpu gpus IH]; intros acc; cbn [fold_left map].
  - now rewrite app_nil_r.
  - rewrite IH, <- app_assoc. reflexivity.
Qed.

(** With at least one device the result is the list of their entries,
    in the order of the enumeration. *)
Lemma get_gpu_info_devices (env : Env) (gpus : list GPU) :
  GPU_AVAILABLE env = true -> GPUtil_getGPUs env = Ok gpus -> gpus <> [] ->
  get_gpu_info env = Ok (VList (map gpu_entry gpus)).
Proof.
  intros Ha Hg Hne. unfold get_gpu_info. rewrite Ha, Hg.
  cbn [negb bind try_except].
  destruct gpus as [ | gpu gpus]; [contradiction|].
  rewrite append_entries. reflexivity.
Qed.

(** [get_gpu_info] returns in every environment, a status record or a
    list of entries. *)
Lemma get_gpu_info_total (env : Env) :
  exists gpu, get_gpu_info env = Ok gpu /\
    ((exists status, gpu = VDict status /\ sentinel "status" status) \/
     (exists entries, gpu = VList entries)).
Proof.
  unfold get_gpu_info, sentinel.
  destruct (GPU_AVAILABLE env); cbn [negb].
  - destruct (GPUtil_getGPUs env) as [[ | gpu gpus] | e]; cbn [bind try_except];
      eexists; (split; [reflexivity|]); eauto.
  - eexists; (split; [reflexivity|]); eauto.
Qed.

(** [get_disk_info] returns in every environment, the four fields or an
    error record. *)
Lemma get_disk_info_total (env : Env) :
  exists disk, get_disk_info env = Ok disk /\
    (keys disk = disk_keys \/ sentinel "error" disk).
Proof.
  unfold get_disk_info, sentinel.
  destruct (platform_system env) as [sys | e]; cbn [bind try_except]; [|eauto].
  destruct (if String.eqb sys "Windows" then _ else _) as [disk | e];
    cbn [bind try_except]; [|eauto].
  destruct (bytes_to_gb (disk_total disk)); cbn [bind try_except]; [|eauto].
  destruct (bytes_to_gb (disk_used disk)); cbn [bind try_except]; [|eauto].
  destruct (bytes_to_gb (disk_free disk)); cbn [bind try_except]; eauto.
Qed.

(** [get_cpu_info] once the four psutil calls have returned: what is
    left is the choice of the processor name. *)
Lemma get_cpu_info_unfold (env : Env) (physical logical : option Z)
    (usage : PyFloat.float) (cpu_freq : option scpufreq) :
  psutil_cpu_count env false = Ok physical ->
  psutil_cpu_count env true = Ok logical ->
  psutil_cpu_percent env = Ok usage ->
  psutil_cpu_freq env = Ok cpu_freq ->
  get_cpu_info env =
  let fallback :=
    p <- platform_processor env ;;
    Ok (cpu_record physical logical usage cpu_freq (VStr (str_or p "Unknown"))) in
  if CPUINFO_AVAILABLE env then
    try_except
      (info <- cpuinfo_get_cpu_info env ;;
       Ok (cpu_record physical logical usage cpu_freq
             (dict_get_default info "brand_raw" (VStr "Unknown"))))
      (fun _ => fallback)
  else fallback.
Proof.
  intros Hp Hl Hu Hf. unfold get_cpu_info, set_platform_processor, cpu_record.
  rewrite Hp, Hl, Hu, Hf. cbn [bind].
  destruct cpu_freq as [f | ]; reflexivity.
Qed.

Lemma cpu_record_keys (physical logical : option Z) (usage : PyFloat.float)
    (cpu_freq : option scpufreq) (name : pyval) :
  keys (cpu_record physical logical usage cpu_freq name) =
  cpu_keys (match cpu_freq with Some _ => true | None => false end).
Proof. destruct cpu_freq; reflexivity. Qed.

Lemma get_cpu_info_returns (env : Env) :
  returns (psutil_cpu_count env false) ->
  returns (psutil_cpu_count env true) ->
  returns (psutil_cpu_percent env) ->
  returns (psutil_cpu_freq env) ->
  processor_name_resolves env ->
  exists physical logical usage cpu_freq name,
    psutil_cpu_count env false = Ok physical /\
    psutil_cpu_count env true = Ok logical /\
    psutil_cpu_percent env = Ok usage /\
    psutil_cpu_freq env = Ok cpu_freq /\
    get_cpu_info env = Ok (cpu_record physical logical usage cpu_freq name).
Proof.
  intros [physical Hp] [logical Hl] [usage Hu] [cpu_freq Hf] Hname.
  exists physical, logical, usage, cpu_freq.
  rewrite (get_cpu_info_unfold env _ _ _ _ Hp Hl Hu Hf). cbv zeta.
  destruct (CPUINFO_AVAILABLE env) eqn:Ha.
  - destruct (cpuinfo_get_cpu_info env) as [info | e] eqn:Hi; cbn [bind try_except].
    + eauto 10.
    + destruct Hname as [[p Hproc] | [_ [info Hinfo]]]; [|congruence].
      rewrite Hproc. cbn [bind]. eauto 10.
  - destruct Hname as [[p Hproc] | [Hav _]]; [|congruence].
    rewrite Hproc. cbn [bind]. eauto 10.
Qed.

Lemma get_memory_info_returns (env : Env) (mem : svmem) :
  psutil_virtual_memory env = Ok mem ->
  byte_count (mem_total mem) -> byte_count (mem_available mem) ->
  byte_count (mem_used mem) ->
  exists memory, get_memory_info env = Ok memory /\ keys memory = memory_keys.
Proof.
  intros Hm Ht Ha Hu. unfold get_memory_info. rewrite Hm. cbn [bind].
  destruct (byte_count_returns _ Ht) as [t ->].
  destruct (byte_count_returns _ Ha) as [a ->].
  destruct (byte_count_returns _ Hu) as [u ->].
  cbn [bind]. eauto.
Qed.

Lemma get_system_info_keys (env : Env) (system_info : dict) :
  get_system_info env = Ok system_info -> keys system_info = system_keys.
Proof.
  unfold get_system_info. destruct (platform_uname env); cbn [bind]; [|discriminate].
  intros [= <-]. reflexivity.
Qed.

Lemma get_memory_info_keys (env : Env) (memory : dict) :
  get_memory_info env = Ok memory -> keys memory = memory_keys.
Proof.
  unfold get_memory_info.
  destruct (psutil_virtual_memory env) as [mem | ]; cbn [bind]; [|discriminate].
  destruct (bytes_to_gb (mem_total mem)); cbn [bind]; [|discriminate].
  destruct (bytes_to_gb (mem_available mem)); cbn [bind]; [|discriminate].
  destruct (bytes_to_gb (mem_used mem)); cbn [bind]; [|discriminate].
  intros [= <-]. reflexivity.
Qed.

(** When [get_cpu_info] returns, the four psutil calls have returned. *)
Lemma get_cpu_info_inv (env : Env) (cpu : dict) :
  get_cpu_info env = Ok cpu ->
  exists physical logical usage cpu_freq,
    psutil_cpu_count env false = Ok physical /\
    psutil_cpu_count env true = Ok logical /\
    psutil_cpu_percent env = Ok usage /\
    psutil_cpu_freq env = Ok cpu_freq.
Proof.
  unfold get_cpu_info.
  destruct (psutil_cpu_count env false) as [physical | ]; cbn [bind]; [|discriminate].
  destruct (psutil_cpu_count env true) as [logical | ]; cbn [bind]; [|discriminate].
  destruct (psutil_cpu_percent env) as [usage | ]; cbn [bind]; [|discriminate].
  destruct (psutil_cpu_freq env) as [cpu_freq | ]; cbn [bind]; [|discriminate].
  intros _. exists physical, logical, usage, cpu_freq. auto.
Qed.

(** Whatever name is stored, the four psutil answers decide every other
    field. *)
Lemma get_cpu_info_shape (env : Env) (cpu : dict) :
  get_cpu_info env = Ok cpu ->
  exists physical logical usage cpu_freq name,
    psutil_cpu_count env false = Ok physical /\
    psutil_cpu_count env true = Ok logical /\
    psutil_cpu_percent env = Ok usage /\
    psutil_cpu_freq env = Ok cpu_freq /\
    cpu = cpu_record physical logical usage cpu_freq name.
Proof.
  intros Hcpu.
  destruct (get_cpu_info_inv env cpu Hcpu)
    as (physical & logical & usage & cpu_freq & Hp & Hl & Hu & Hf).
  rewrite (get_cpu_info_unfold env _ _ _ _ Hp Hl Hu Hf) in Hcpu. cbv zeta in Hcpu.
  exists physical, logical, usage, cpu_freq.
  assert (Hfallback :
    (p <- platform_processor env ;;
     Ok (cpu_record physical logical usage cpu_freq (VStr (str_or p "Unknown"))))
    = Ok cpu ->
    exists name, cpu = cpu_record physical logical usage cpu_freq name).
  { destruct (platform_processor env) as [p | ]; cbn [bind]; [|discriminate].
    intros [= <-]. eauto. }
  assert (exists name, cpu = cpu_record physical logical usage cpu_freq name)
    as [name Hname].
  { destruct (CPUINFO_AVAILABLE env); [|auto].
    destruct (cpuinfo_get_cpu_info env) as [info | e]; cbn [bind try_except] in Hcpu;
      [|auto].
    injection Hcpu as <-. eauto. }
  exists name. auto.
Qed.

Lemma get_gpu_info_entries (env : Env) (entries : list pyval) :
  get_gpu_info env = Ok (VList entries) ->
  exists gpus, GPUtil_getGPUs env = Ok gpus /\ entries = map gpu_entry gpus.
Proof.
  unfold get_gpu_info.
  destruct (GPU_AVAILABLE env); cbn [negb]; [|discriminate].
  destruct (GPUtil_getGPUs env) as [[ | gpu gpus] | e]; cbn [bind try_except];
    try discriminate.
  rewrite append_entries. intros [= <-]. eauto.
Qed.

(** ** The snapshot as a whole *)

(** The three unguarded queries pass their exceptions on: whichever of
    them raises first decides how [get_sysinfo] ends. *)
Lemma unguarded_failures_escape (env : Env) (e : exn) :
  (get_system_info env = Raise e -> get_sysinfo env = Raise e)
  /\ (returns (get_system_info env) -> get_cpu_info env = Raise e ->
      get_sysinfo env = Raise e)
  /\ (returns (get_system_info env) -> returns (get_cpu_info env) ->
      get_memory_info env = Raise e -> get_sysinfo env = Raise e)
  /\ (psutil_virtual_memory env = Raise e -> get_memory_info env = Raise e).
Proof.
  unfold get_sysinfo. repeat split.
  - intros ->. reflexivity.
  - intros [s ->] ->. reflexivity.
  - intros [s ->] [c ->] ->. reflexivity.
  - intros H. unfold get_memory_info. rewrite H. reflexivity.
Qed.

(** C1, as stated, does not hold: the identity, CPU and memory queries
    have no handler, so an exception of theirs leaves [get_sysinfo].  On
    a host whose memory counters cannot be read the whole snapshot
    raises that error. *)
Lemma get_sysinfo_memory_error_escapes :
  get_sysinfo host_memory_unreadable = Raise (os_error "cannot read /proc/meminfo")
  /\ ~ returns (get_sysinfo host_memory_unreadable).
Proof.
  assert (E : get_sysinfo host_memory_unreadable
              = Raise (os_error "cannot read /proc/meminfo")) by reflexivity.
  split; [exact E|]. intros [snap Hsnap]. rewrite E in Hsnap. discriminate.
Qed.

(** C1, amended: whenever the unguarded sources answer (identity, CPU
    counters, a resolvable processor name, memory counters that are
    64-bit byte counts), [get_sysinfo] returns a snapshot of five fields
    and raises nothing, whatever the disk query, the GPU enumeration and
    the optional cpuinfo source do: the disk field holds the four numbers
    or an [error] record, the GPU field a [status] record or a list. *)
Theorem get_sysinfo_isolates_guarded_sources (env : Env) :
  unguarded_sources_return env ->
  exists system_info cpu memory disk gpu with_frequency,
    get_sysinfo env =
      Ok [ ("system", VDict system_info); ("cpu", VDict cpu);
           ("memory", VDict memory); ("disk", VDict disk); ("gpu", gpu) ]
    /\ keys system_info = system_keys
    /\ keys cpu = cpu_keys with_frequency
    /\ keys memory = memory_keys
    /\ (keys disk = disk_keys \/ sentinel "error" disk)
    /\ ((exists status, gpu = VDict status /\ sentinel "status" status)
        \/ (exists entries, gpu = VList entries)).
Proof.
  intros ([un Hun] & Hp & Hl & Hu & Hf & Hname & mem & Hmem & Ht & Ha & Hus).
  destruct (get_cpu_info_returns env Hp Hl Hu Hf Hname)
    as (physical & logical & usage & cpu_freq & name & _ & _ & _ & _ & Hcpu).
  destruct (get_memory_info_returns env mem Hmem Ht Ha Hus) as (memory & Hmemory & Kmem).
  destruct (get_disk_info_total env) as (disk & Hdisk & Kdisk).
  destruct (get_gpu_info_total env) as (gpu & Hgpu & Kgpu).
  unfold get_sysinfo.
  assert (Hsys : get_system_info env = Ok
            [ ("system_name", VStr (system un)); ("node_name", VStr (node un));
              ("os_release", VStr (release un)); ("os_version", VStr (version un));
              ("machine_type", VStr (machine un)); ("processor", VStr (processor un)) ]).
  { unfold get_system_info. rewrite Hun. reflexivity. }
  rewrite Hsys, Hcpu, Hmemory, Hdisk, Hgpu. cbn [bind].
  do 6 eexists. split; [reflexivity|].
  split; [reflexivity|]. split; [apply cpu_record_keys|]. auto.
Qed.

(** The amended C1 at work: the root volume is unreadable and GPUtil is
    missing, and the snapshot still comes back. *)
Lemma get_sysinfo_isolates_witness :
  exists system_info cpu memory disk gpu with_frequency,
    get_sysinfo host_disk_unreadable =
      Ok [ ("system", VDict system_info); ("cpu", VDict cpu);
           ("memory", VDict memory); ("disk", VDict disk); ("gpu", gpu) ]
    /\ keys system_info = system_keys
    /\ keys cpu = cpu_keys with_frequency
    /\ keys memory = memory_keys
    /\ (keys disk = disk_keys \/ sentinel "error" disk)
    /\ ((exists status, gpu = VDict status /\ sentinel "status" status)
        \/ (exists entries, gpu = VList entries)).
Proof.
  apply (get_sysinfo_isolates_guarded_sources host_disk_unreadable).
  unfold unguarded_sources_return, processor_name_resolves, returns.
  repeat split; try (eexists; reflexivity).
  - left. eexists. reflexivity.
  - exists example_memory. unfold byte_count. cbn.
    repeat split; try reflexivity; discriminate.
Defined.

(** ** The disk query *)

(** C2, as stated, does not hold for every outcome of the disk-usage
    call.  A root volume of [2^53 + 2^27 + 1] bytes (a 64-bit count) is
    8388608.125000000931... gigabytes, 8388608.13 to two decimals; the
    field [total_gb] holds 8388608.12, because the float quotient has
    lost the last bit before it is rounded. *)
Lemma get_disk_info_large_volume :
  byte_count (disk_total large_volume)
  /\ psutil_disk_usage host_with_large_volume "/" = Ok large_volume
  /\ bytes_to_gb_spec (disk_total large_volume) = PyFloat.decimal2 false 838860813
  /\ exists d,
       get_disk_info host_with_large_volume = Ok d
       /\ dict_get d "total_gb" = Some (VFloat (PyFloat.decimal2 false 838860812))
       /\ dict_get d "total_gb"
            <> Some (VFloat (bytes_to_gb_spec (disk_total large_volume))).
Proof.
  split; [unfold byte_count; cbn; split; (discriminate || reflexivity)|].
  split; [reflexivity|].
  split; [vm_compute; reflexivity|].
  eexists. split; [vm_compute; reflexivity|].
  split; [vm_compute; reflexivity|].
  vm_compute. discriminate.
Qed.

(** C2, amended: [get_disk_info] returns in every environment.  When the
    disk-usage call on the root volume raises [e], the result is exactly
    the record [{"error": str(e)}], which has no numeric field.  When it
    returns 64-bit byte counts, the result is exactly the four fields
    [total_gb], [used_gb], [free_gb] and [utilization_percent]; each
    size is its byte count converted to gigabytes and rounded to two
    decimals in floating point: the binary64 quotient by [1024^3]
    rounded to two decimals, which for a count below [2^53] is the exact
    quotient rounded to two decimals.  The percentage is the reported
    one. *)
Theorem get_disk_info_never_raises (env : Env) :
  returns (get_disk_info env)
  /\ (forall e, platform_system env = Raise e ->
        get_disk_info env = Ok [ ("error", VStr (exn_str e)) ])
  /\ (forall sys e,
        platform_system env = Ok sys ->
        psutil_disk_usage env (root_volume sys) = Raise e ->
        get_disk_info env = Ok [ ("error", VStr (exn_str e)) ])
  /\ (forall sys disk,
        platform_system env = Ok sys ->
        psutil_disk_usage env (root_volume sys) = Ok disk ->
        byte_count (disk_total disk) -> byte_count (disk_used disk) ->
        byte_count (disk_free disk) ->
        exists total_gb used_gb free_gb,
          bytes_to_gb (disk_total disk) = Ok total_gb
          /\ bytes_to_gb (disk_used disk) = Ok used_gb
          /\ bytes_to_gb (disk_free disk) = Ok free_gb
          /\ converted_to_gb (disk_total disk) total_gb
          /\ converted_to_gb (disk_used disk) used_gb
          /\ converted_to_gb (disk_free disk) free_gb
          /\ get_disk_info env =
               Ok [ ("total_gb", VFloat total_gb); ("used_gb", VFloat used_gb);
                    ("free_gb", VFloat free_gb);
                    ("utilization_percent", VFloat (disk_percent disk)) ]).
Proof.
  split; [|split; [|split]].
  - destruct (get_disk_info_total env) as (disk & Hdisk & _). exists disk. exact Hdisk.
  - intros e Hsys. unfold get_disk_info. rewrite Hsys. reflexivity.
  - intros sys e Hsys Hdisk. unfold get_disk_info. rewrite Hsys. cbn [bind].
    unfold root_volume in Hdisk.
    destruct (String.eqb sys "Windows"); rewrite Hdisk; reflexivity.
  - intros sys disk Hsys Hdisk Ht Hu Hf.
    destruct (byte_count_converted _ Ht) as (t & Et & Ct).
    destruct (byte_count_converted _ Hu) as (u & Eu & Cu).
    destruct (byte_count_converted _ Hf) as (f & Ef & Cf).
    exists t, u, f. repeat (split; [assumption|]).
    unfold get_disk_info. rewrite Hsys. cbn [bind].
    unfold root_volume in Hdisk.
    destruct (String.eqb sys "Windows"); rewrite Hdisk; cbn [bind];
      rewrite Et, Eu, Ef; reflexivity.
Qed.

(** The amended C2 on two hosts: an unreadable root volume gives the
    error record; the 500 GB volume gives the four fields, its sizes the
    exact quotients rounded to two decimals (465.76, 186.26, 279.5). *)
Lemma get_disk_info_witness :
  get_disk_info host_disk_unreadable = Ok [ ("error", VStr "Permission denied") ]
  /\ get_disk_info plain_host =
       Ok [ ("total_gb", VFloat (bytes_to_gb_spec 500107862016));
            ("used_gb", VFloat (bytes_to_gb_spec 200000000000));
            ("free_gb", VFloat (bytes_to_gb_spec 300107862016));
            ("utilization_percent", VFloat (disk_percent example_disk)) ]
  /\ bytes_to_gb_spec 500107862016 = PyFloat.decimal2 false 46576
  /\ bytes_to_gb_spec 200000000000 = PyFloat.decimal2 false 18626
  /\ bytes_to_gb_spec 300107862016 = PyFloat.decimal2 false 27950.
Proof.
  split.
  - apply (proj1 (proj2 (proj2 (get_disk_info_never_raises host_disk_unreadable)))
             "Linux" (os_error "Permission denied")); reflexivity.
  - destruct (proj2 (proj2 (proj2 (get_disk_info_never_raises plain_host)))
                "Linux" example_disk eq_refl eq_refl)
      as (t & u & f & _ & _ & _ & [_ Ht] & [_ Hu] & [_ Hf] & Hd);
      try (unfold byte_count; cbn; split; (discriminate || reflexivity)).
    rewrite Hd, (Ht eq_refl), (Hu eq_refl), (Hf eq_refl).
    repeat split; vm_compute; reflexivity.
Defined.

(** ** The GPU query *)

(** C3: without the GPU telemetry package, [get_gpu_info] returns exactly
    the record [{"status": "GPUtil not installed or no NVIDIA GPU
    detected"}], and so never a list of devices. *)
Theorem get_gpu_info_without_gputil (env : Env) :
  GPU_AVAILABLE env = false ->
  get_gpu_info env =
    Ok (VDict [ ("status", VStr "GPUtil not installed or no NVIDIA GPU detected") ])
  /\ forall entries, get_gpu_info env <> Ok (VList entries).
Proof.
  intros Ha. unfold get_gpu_info. rewrite Ha. cbn [negb].
  split; [reflexivity | discriminate].
Qed.

(** C3 on the plain host, which has no GPUtil. *)
Lemma get_gpu_info_without_gputil_witness :
  get_gpu_info plain_host =
    Ok (VDict [ ("status", VStr "GPUtil not installed or no NVIDIA GPU detected") ])
  /\ forall entries, get_gpu_info plain_host <> Ok (VList entries).
Proof.
  apply (get_gpu_info_without_gputil plain_host). reflexivity.
Defined.

(** C4: with the package present, an enumeration that finds no device
    gives a status record (a dictionary under the key [status]), not an
    empty list; an enumeration that raises gives a status record that
    carries the error text, and nothing is raised. *)
Theorem get_gpu_info_degrades (env : Env) :
  GPU_AVAILABLE env = true ->
  (GPUtil_getGPUs env = Ok [] ->
     get_gpu_info env = Ok (VDict [ ("status", VStr "No NVIDIA GPU detected") ])
     /\ get_gpu_info env <> Ok (VList []))
  /\ (forall e, GPUtil_getGPUs env = Raise e ->
        get_gpu_info env =
          Ok (VDict [ ("status",
                       VStr (String.append "Error getting GPU info: " (exn_str e))) ])).
Proof.
  intros Ha. unfold get_gpu_info. rewrite Ha. cbn [negb]. split.
  - intros ->. cbn [bind try_except]. split; [reflexivity | discriminate].
  - intros e ->. reflexivity.
Qed.

(** C4 on a host without a device and on a host whose enumeration
    fails. *)
Lemma get_gpu_info_degrades_witness :
  get_gpu_info host_no_device = Ok (VDict [ ("status", VStr "No NVIDIA GPU detected") ])
  /\ get_gpu_info host_gpu_failing =
       Ok (VDict [ ("status", VStr "Error getting GPU info: nvidia-smi not found") ]).
Proof.
  split.
  - apply (proj1 (get_gpu_info_degrades host_no_device eq_refl)). reflexivity.
  - apply (proj2 (get_gpu_info_degrades host_gpu_failing eq_refl)
             (Exn "FileNotFoundError" "nvidia-smi not found")).
    reflexivity.
Defined.

(** ** Bytes to gigabytes *)

(** C5, as stated, does not hold for every input.  From [2^53] bytes on
    the quotient [n / 2^30] no longer fits a float and is rounded before
    [round] sees it: [2^53 + 2^27 + 1] bytes are 8388608.125000000931...
    gigabytes, which is 8388608.13 to two decimals, but the float
    quotient is 8388608.125 and the program returns 8388608.12. *)
Lemma bytes_to_gb_rounds_twice :
  PyFloat.int_truediv (2 ^ 53 + 2 ^ 27 + 1) (1024 ^ 3)
    = Ok (PyFloat.fdiv (PyFloat.int_operand 8388608125) (PyFloat.int_operand 1000))
  /\ bytes_to_gb (2 ^ 53 + 2 ^ 27 + 1) = Ok (PyFloat.decimal2 false 838860812)
  /\ bytes_to_gb_spec (2 ^ 53 + 2 ^ 27 + 1) = PyFloat.decimal2 false 838860813
  /\ bytes_to_gb (2 ^ 53 + 2 ^ 27 + 1) <> Ok (bytes_to_gb_spec (2 ^ 53 + 2 ^ 27 + 1)).
Proof.
  split; [vm_compute; reflexivity|].
  split; [vm_compute; reflexivity|].
  split; [vm_compute; reflexivity|].
  vm_compute. discriminate.
Qed.

(** C5, amended: [bytes_to_gb(1073741824)] is 1.0, [bytes_to_gb(0)] is
    0.0, and for every byte count below [2^53] the result is the exact
    quotient by [1024^3] rounded to two decimals.  For every count the
    system can report the function returns, and its result is the float
    quotient rounded to two decimals. *)
Theorem bytes_to_gb_correct :
  bytes_to_gb 1073741824 = Ok PyFloat.one
  /\ bytes_to_gb 0 = Ok PyFloat.zero
  /\ (forall n, 0 <= n < 2 ^ 53 -> bytes_to_gb n = Ok (bytes_to_gb_spec n))
  /\ (forall n, 0 <= n < 2 ^ 84 ->
        exists quotient gb,
          PyFloat.int_truediv n (1024 ^ 3) = Ok quotient
          /\ bytes_to_gb n = Ok gb
          /\ rounded_to_2_decimals quotient gb).
Proof.
  split; [reflexivity|]. split; [reflexivity|].
  split; [exact bytes_to_gb_meets_spec|].
  intros n Hn. unfold bytes_to_gb.
  destruct (PyFloatFacts.int_truediv_gib_returns n Hn) as [[_ E] | (m & e & E)];
    rewrite E; cbn [bind]; do 2 eexists; (split; [reflexivity|]);
    (split; [reflexivity|]); apply PyFloatFacts.round2_rounds.
Qed.

(** 1.5 GiB are 1.5 gigabytes, and 6 000 000 000 bytes are 5.59. *)
Lemma bytes_to_gb_correct_witness :
  bytes_to_gb 1610612736 = Ok (PyFloat.decimal2 false 150)
  /\ bytes_to_gb 6000000000 = Ok (PyFloat.decimal2 false 559).
Proof.
  split.
  - apply (proj1 (proj2 (proj2 bytes_to_gb_correct)) 1610612736).
    split; [discriminate | reflexivity].
  - apply (proj1 (proj2 (proj2 bytes_to_gb_correct)) 6000000000).
    split; [discriminate | reflexivity].
Defined.

(** ** Field names *)

(** C6, as stated, does not hold: the CPU record has no key
    [usage_percent] and no key [frequency_mhz]; the program writes
    [cpu_usage_percent] and [cpu_frequency_mhz]. *)
Lemma cpu_record_has_no_unprefixed_keys :
  exists snapshot cpu,
    get_sysinfo plain_host = Ok snapshot
    /\ dict_get snapshot "cpu" = Some (VDict cpu)
    /\ dict_get cpu "usage_percent" = None
    /\ dict_get cpu "frequency_mhz" = None
    /\ keys cpu = [ "physical_cores"; "logical_cores"; "cpu_usage_percent";
                    "cpu_frequency_mhz"; "processor_name" ].
Proof.
  do 2 eexists. split; [vm_compute; reflexivity|].
  split; [reflexivity|]. repeat split.
Qed.

(** C6, amended: a snapshot has exactly the keys [system], [cpu],
    [memory], [disk], [gpu], in this nesting.  The identity, memory and
    disk records and the GPU entries carry the field names of the data
    model; the CPU record carries [physical_cores], [logical_cores],
    [cpu_usage_percent], [cpu_frequency_mhz] (only when the platform
    exposes a frequency) and [processor_name]. *)
Theorem snapshot_field_names (env : Env) (snapshot : dict) :
  get_sysinfo env = Ok snapshot ->
  keys snapshot = snapshot_keys
  /\ exists system_info cpu memory disk gpu with_frequency,
       snapshot = [ ("system", VDict system_info); ("cpu", VDict cpu);
                    ("memory", VDict memory); ("disk", VDict disk); ("gpu", gpu) ]
       /\ keys system_info = system_keys
       /\ keys cpu = cpu_keys with_frequency
       /\ (with_frequency = true <-> exists f, psutil_cpu_freq env = Ok (Some f))
       /\ keys memory = memory_keys
       /\ (keys disk = disk_keys \/ keys disk = [ "error" ])
       /\ ((exists status, gpu = VDict status /\ keys status = [ "status" ])
           \/ (exists entries, gpu = VList entries
                 /\ Forall (fun entry => exists d, entry = VDict d
                                           /\ keys d = gpu_entry_keys) entries)).
Proof.
  unfold get_sysinfo. intros Hsnap.
  destruct (get_system_info env) as [system_info | ] eqn:Hsys; cbn [bind] in Hsnap;
    [|discriminate].
  destruct (get_cpu_info env) as [cpu | ] eqn:Hcpu; cbn [bind] in Hsnap; [|discriminate].
  destruct (get_memory_info env) as [memory | ] eqn:Hmem; cbn [bind] in Hsnap;
    [|discriminate].
  destruct (get_disk_info_total env) as (disk & Hdisk & Kdisk).
  destruct (get_gpu_info_total env) as (gpu & Hgpu & Kgpu).
  rewrite Hdisk, Hgpu in Hsnap. cbn [bind] in Hsnap. injection Hsnap as <-.
  split; [reflexivity|].
  destruct (get_cpu_info_shape env cpu Hcpu)
    as (physical & logical & usage & cpu_freq & name & _ & _ & _ & Hf & ->).
  exists system_info, (cpu_record physical logical usage cpu_freq name), memory, disk,
    gpu, (match cpu_freq with Some _ => true | None => false end).
  split; [reflexivity|].
  split; [exact (get_system_info_keys env _ Hsys)|].
  split; [apply cpu_record_keys|].
  split.
  { rewrite Hf. destruct cpu_freq as [f | ]; split; intros H;
      try reflexivity; try discriminate; [eauto | destruct H; discriminate]. }
  split; [exact (get_memory_info_keys env _ Hmem)|].
  split.
  { destruct Kdisk as [K | [text ->]]; [left | right]; auto. }
  destruct Kgpu as [(status & -> & text & ->) | (entries & ->)]; [left | right].
  - eauto.
  - exists entries. split; [reflexivity|].
    destruct (get_gpu_info_entries env entries Hgpu) as (gpus & _ & ->).
    apply Forall_forall. intros entry Hin. apply in_map_iff in Hin.
    destruct Hin as (gpu & <- & _). eexists. split; reflexivity.
Qed.

(** The amended C6 on the host with both optional packages. *)
Lemma snapshot_field_names_witness :
  exists snapshot,
    get_sysinfo gpu_host = Ok snapshot
    /\ keys snapshot = snapshot_keys
    /\ exists cpu, dict_get snapshot "cpu" = Some (VDict cpu)
                   /\ keys cpu = cpu_keys true.
Proof.
  destruct (get_sysinfo gpu_host) as [snapshot | e] eqn:Hsnap; [|discriminate].
  exists snapshot. split; [reflexivity|].
  split; [exact (proj1 (snapshot_field_names gpu_host snapshot Hsnap))|].
  vm_compute in Hsnap. injection Hsnap as <-.
  eexists. split; reflexivity.
Defined.

(** ** GPU entries *)

(** C7: every device of the enumeration has its entry, at the same
    position.  The three memory fields are the source's MB values
    rounded to two decimals, the utilization is the source's load
    fraction times 100, and the temperature is the source's value
    itself. *)
Theorem gpu_entries_follow_the_source (env : Env) (gpus : list GPU) :
  GPU_AVAILABLE env = true ->
  GPUtil_getGPUs env = Ok gpus ->
  gpus <> [] ->
  exists entries,
    get_gpu_info env = Ok (VList entries)
    /\ List.length entries = List.length gpus
    /\ forall i gpu,
         nth_error gpus i = Some gpu ->
         exists entry,
           nth_error entries i = Some (VDict entry)
           /\ keys entry = gpu_entry_keys
           /\ dict_get entry "memory_total_mb"
                = Some (VFloat (PyFloat.round2 (memoryTotal gpu)))
           /\ dict_get entry "memory_used_mb"
                = Some (VFloat (PyFloat.round2 (memoryUsed gpu)))
           /\ dict_get entry "memory_free_mb"
                = Some (VFloat (PyFloat.round2 (memoryFree gpu)))
           /\ rounded_to_2_decimals (memoryTotal gpu) (PyFloat.round2 (memoryTotal gpu))
           /\ rounded_to_2_decimals (memoryUsed gpu) (PyFloat.round2 (memoryUsed gpu))
           /\ rounded_to_2_decimals (memoryFree gpu) (PyFloat.round2 (memoryFree gpu))
           /\ dict_get entry "gpu_utilization_percent"
                = Some (VFloat (PyFloat.fmul (load gpu) (PyFloat.float_of_int 100)))
           /\ dict_get entry "temperature_c" = Some (VFloat (temperature gpu)).
Proof.
  intros Ha Hg Hne.
  exists (map gpu_entry gpus).
  split; [apply get_gpu_info_devices; assumption|].
  split; [apply length_map|].
  intros i gpu Hi.
  eexists. split; [rewrite nth_error_map, Hi; reflexivity|].
  repeat (split; [first [reflexivity | apply PyFloatFacts.round2_rounds]|]).
  reflexivity.
Qed.

(** C7 on the example device: 1234.567 MB used are reported as 1234.57,
    a load of 0.37 as 37.0, and 61 degrees as 61. *)
Lemma gpu_entries_witness :
  exists entries entry,
    get_gpu_info gpu_host = Ok (VList entries)
    /\ nth_error entries 0 = Some (VDict entry)
    /\ dict_get entry "memory_used_mb" = Some (VFloat (PyFloat.decimal2 false 123457))
    /\ dict_get entry "gpu_utilization_percent"
         = Some (VFloat (PyFloat.float_of_int 37))
    /\ dict_get entry "temperature_c" = Some (VFloat (PyFloat.float_of_int 61)).
Proof.
  destruct (gpu_entries_follow_the_source gpu_host [example_gpu] eq_refl eq_refl
              ltac:(discriminate))
    as (entries & Hentries & _ & Hat).
  destruct (Hat 0%nat example_gpu eq_refl)
    as (entry & Hentry & _ & _ & Hused & _ & _ & _ & _ & Hload & Htemp).
  exists entries, entry.
  split; [exact Hentries|]. split; [exact Hentry|].
  split; [exact Hused|]. split; [exact Hload | exact Htemp].
Defined.

(** ** The CPU record *)

(** C8, as stated, does not hold: the chain has a link the claim
    lacks.  On a host where cpuinfo is installed and answers without a
    [brand_raw] entry, there is no brand string to use, and the platform
    reports the processor string "x86_64"; the name in the record is
    neither: it is "Unknown", and the platform is not consulted. *)
Lemma missing_brand_gives_Unknown :
  CPUINFO_AVAILABLE host_no_device = true
  /\ (exists info, cpuinfo_get_cpu_info host_no_device = Ok info
                   /\ dict_get info "brand_raw" = None)
  /\ platform_processor host_no_device = Ok "x86_64"
  /\ exists cpu,
       get_cpu_info host_no_device = Ok cpu
       /\ dict_get cpu "processor_name" = Some (VStr "Unknown")
       /\ dict_get cpu "processor_name" <> Some (VStr "x86_64").
Proof.
  split; [reflexivity|].
  split; [eexists; split; reflexivity|].
  split; [reflexivity|].
  eexists. split; [vm_compute; reflexivity|].
  split; [reflexivity | discriminate].
Qed.

(** C8, amended: once the four psutil calls have returned, the processor
    name is resolved as follows.  With cpuinfo installed and answering,
    the name is its [brand_raw] entry, and the text "Unknown" when the
    answer has no such entry; the platform is not asked.  With cpuinfo
    missing, or raising, the name is the platform's processor string, or
    "Unknown" when that string is empty. *)
Theorem processor_name_fallback_chain (env : Env) :
  returns (psutil_cpu_count env false) ->
  returns (psutil_cpu_count env true) ->
  returns (psutil_cpu_percent env) ->
  returns (psutil_cpu_freq env) ->
  (forall info,
     CPUINFO_AVAILABLE env = true -> cpuinfo_get_cpu_info env = Ok info ->
     exists cpu,
       get_cpu_info env = Ok cpu
       /\ dict_get cpu "processor_name"
            = Some match dict_get info "brand_raw" with
                   | Some brand => brand
                   | None => VStr "Unknown"
                   end)
  /\ (forall p,
        CPUINFO_AVAILABLE env = false
        \/ (exists e, cpuinfo_get_cpu_info env = Raise e) ->
        platform_processor env = Ok p ->
        exists cpu,
          get_cpu_info env = Ok cpu
          /\ dict_get cpu "processor_name"
               = Some (VStr (if String.eqb p "" then "Unknown" else p))).
Proof.
  intros [physical Hp] [logical Hl] [usage Hu] [cpu_freq Hf].
  rewrite (get_cpu_info_unfold env _ _ _ _ Hp Hl Hu Hf). cbv zeta.
  assert (Hname : forall name,
            dict_get (cpu_record physical logical usage cpu_freq name) "processor_name"
            = Some name).
  { intros name. destruct cpu_freq; reflexivity. }
  assert (Hor : forall p, str_or p "Unknown" = if String.eqb p "" then "Unknown" else p).
  { intros [ | c p]; reflexivity. }
  split.
  - intros info Ha Hi. rewrite Ha, Hi. cbn [bind try_except].
    eexists. split; [reflexivity|]. rewrite Hname. reflexivity.
  - intros p Hcase Hproc. rewrite Hproc. cbn [bind].
    destruct (CPUINFO_AVAILABLE env).
    + destruct Hcase as [Hcase | [e He]]; [discriminate|].
      rewrite He. cbn [bind try_except].
      eexists. split; [reflexivity|]. rewrite Hname, Hor. reflexivity.
    + eexists. split; [reflexivity|]. rewrite Hname, Hor. reflexivity.
Qed.

(** C8 on three hosts: the brand of cpuinfo, the platform's string when
    cpuinfo raises, and the same when cpuinfo is not installed. *)
Lemma processor_name_witness :
  (exists cpu, get_cpu_info gpu_host = Ok cpu
               /\ dict_get cpu "processor_name" = Some (VStr "AMD Ryzen 7"))
  /\ (exists cpu, get_cpu_info host_gpu_failing = Ok cpu
                  /\ dict_get cpu "processor_name" = Some (VStr "x86_64"))
  /\ (exists cpu, get_cpu_info plain_host = Ok cpu
                  /\ dict_get cpu "processor_name" = Some (VStr "x86_64")).
Proof.
  assert (R : forall env : Env,
            (exists a b c d, psutil_cpu_count env false = Ok a
                             /\ psutil_cpu_count env true = Ok b
                             /\ psutil_cpu_percent env = Ok c
                             /\ psutil_cpu_freq env = Ok d) ->
            returns (psutil_cpu_count env false) /\ returns (psutil_cpu_count env true)
            /\ returns (psutil_cpu_percent env) /\ returns (psutil_cpu_freq env)).
  { intros env (a & b & c & d & Ha & Hb & Hc & Hd). unfold returns. eauto 10. }
  split; [|split].
  - destruct (R gpu_host) as (H1 & H2 & H3 & H4);
      [do 4 eexists; repeat split; reflexivity|].
    exact (proj1 (processor_name_fallback_chain gpu_host H1 H2 H3 H4)
             [ ("brand_raw", VStr "AMD Ryzen 7") ] eq_refl eq_refl).
  - destruct (R host_gpu_failing) as (H1 & H2 & H3 & H4);
      [do 4 eexists; repeat split; reflexivity|].
    exact (proj2 (processor_name_fallback_chain host_gpu_failing H1 H2 H3 H4)
             "x86_64"
             (or_intror (ex_intro _ (Exn "RuntimeError" "cpuid unavailable") eq_refl))
             eq_refl).
  - destruct (R plain_host) as (H1 & H2 & H3 & H4);
      [do 4 eexists; repeat split; reflexivity|].
    exact (proj2 (processor_name_fallback_chain plain_host H1 H2 H3 H4)
             "x86_64" (or_introl eq_refl) eq_refl).
Defined.

(** C9, as stated, does not hold: when the platform cannot determine
    the core counts, the keys [physical_cores] and [logical_cores] are
    present and hold [None]. *)
Lemma unknown_cores_are_present_as_None :
  exists cpu,
    get_cpu_info host_cores_unknown = Ok cpu
    /\ dict_get cpu "physical_cores" = Some VNone
    /\ dict_get cpu "logical_cores" = Some VNone.
Proof.
  eexists. split; [vm_compute; reflexivity|]. split; reflexivity.
Qed.

(** C9, amended: [physical_cores] and [logical_cores] are always
    present; each holds the count the platform reports, an integer, or
    [None] when the platform cannot determine it (so a count that is at
    least 0 at the source is at least 0 in the record).  The key
    [cpu_frequency_mhz] is present exactly when the platform exposes a
    clock frequency. *)
Theorem cpu_record_counts_and_frequency (env : Env) (physical logical : option Z)
    (usage : PyFloat.float) (cpu_freq : option scpufreq) :
  psutil_cpu_count env false = Ok physical ->
  psutil_cpu_count env true = Ok logical ->
  psutil_cpu_percent env = Ok usage ->
  psutil_cpu_freq env = Ok cpu_freq ->
  processor_name_resolves env ->
  exists cpu,
    get_cpu_info env = Ok cpu
    /\ dict_get cpu "physical_cores"
         = Some match physical with Some n => VInt n | None => VNone end
    /\ dict_get cpu "logical_cores"
         = Some match logical with Some n => VInt n | None => VNone end
    /\ match cpu_freq with
       | Some f => exists mhz, dict_get cpu "cpu_frequency_mhz" = Some (VFloat mhz)
       | None => dict_get cpu "cpu_frequency_mhz" = None
       end.
Proof.
  intros Hp Hl Hu Hf Hname.
  destruct (get_cpu_info_returns env) as (p' & l' & u' & f' & name & Hp' & Hl' & _ & Hf' & Hcpu);
    unfold returns; eauto.
  rewrite Hp in Hp'. rewrite Hl in Hl'. rewrite Hf in Hf'.
  injection Hp' as <-. injection Hl' as <-. injection Hf' as <-.
  eexists. split; [exact Hcpu|].
  destruct physical, logical, cpu_freq; repeat split; eexists; reflexivity.
Qed.

(** The amended C9 on the plain host: four cores, eight threads and a
    frequency. *)
Lemma cpu_record_counts_witness :
  exists cpu,
    get_cpu_info plain_host = Ok cpu
    /\ dict_get cpu "physical_cores" = Some (VInt 4)
    /\ dict_get cpu "logical_cores" = Some (VInt 8)
    /\ exists mhz, dict_get cpu "cpu_frequency_mhz" = Some (VFloat mhz).
Proof.
  apply (cpu_record_counts_and_frequency plain_host (Some 4) (Some 8)
           (PyFloat.decimal2 false 1250) (Some example_freq));
    try reflexivity.
  left. eexists. reflexivity.
Defined.

(** C10: whenever the CPU record has the field [cpu_frequency_mhz], the
    platform has reported a frequency and the field holds its current
    value rounded to two decimal places. *)
Theorem cpu_frequency_is_rounded (env : Env) (cpu : dict) (v : pyval) :
  get_cpu_info env = Ok cpu ->
  dict_get cpu "cpu_frequency_mhz" = Some v ->
  exists f,
    psutil_cpu_freq env = Ok (Some f)
    /\ v = VFloat (PyFloat.round2 (current f))
    /\ rounded_to_2_decimals (current f) (PyFloat.round2 (current f)).
Proof.
  intros Hcpu Hv.
  destruct (get_cpu_info_shape env cpu Hcpu)
    as (physical & logical & usage & cpu_freq & name & _ & _ & _ & Hf & ->).
  destruct cpu_freq as [f | ].
  - exists f. split; [exact Hf|].
    cbn in Hv. injection Hv as <-.
    split; [reflexivity | apply PyFloatFacts.round2_rounds].
  - cbn in Hv. discriminate.
Qed.

(** C10 on the example host: 2400.123 MHz are reported as 2400.12. *)
Lemma cpu_frequency_witness :
  exists f,
    psutil_cpu_freq plain_host = Ok (Some f)
    /\ VFloat (PyFloat.decimal2 false 240012) = VFloat (PyFloat.round2 (current f))
    /\ rounded_to_2_decimals (current f) (PyFloat.round2 (current f)).
Proof.
  apply (cpu_frequency_is_rounded plain_host
           (cpu_record (Some 4) (Some 8) (PyFloat.decimal2 false 1250)
                       (Some example_freq) (VStr "x86_64"))
           (VFloat (PyFloat.decimal2 false 240012))).
  - vm_compute. reflexivity.
  - vm_compute. reflexivity.
Defined.

(** * Further properties of the program *)

(** ** Arithmetic of the conversion *)

Lemma div_half_even_monotone (a b den : Z) :
  0 < den -> a <= b ->
  PyFloat.div_half_even a den <= PyFloat.div_half_even b den.
Proof.
  intros Hd Hab. unfold PyFloat.div_half_even.
  pose proof (Z.div_mod a den ltac:(lia)) as Ea.
  pose proof (Z.div_mod b den ltac:(lia)) as Eb.
  pose proof (Z.mod_pos_bound a den Hd) as Ba.
  pose proof (Z.mod_pos_bound b den Hd) as Bb.
  pose proof (Z.div_le_mono a b den Hd Hab) as Hq.
  destruct (Z.eq_dec (a / den) (b / den)) as [Heq | Hne].
  - rewrite <- Heq in *.
    assert (a mod den <= b mod den) by nia.
    destruct (Z.compare_spec (2 * (a mod den)) den);
      destruct (Z.compare_spec (2 * (b mod den)) den);
      destruct (Z.even (a / den)); lia.
  - assert (a / den + 1 <= b / den) by lia.
    destruct (Z.compare_spec (2 * (a mod den)) den);
      destruct (Z.compare_spec (2 * (b mod den)) den);
      destruct (Z.even (a / den)); destruct (Z.even (b / den)); lia.
Qed.

Lemma gb_hundredths_zero_iff (n : Z) :
  0 <= n -> (gb_hundredths n = 0 <-> n <= 5368709).
Proof.
  intros Hn. unfold gb_hundredths, PyFloat.div_half_even.
  change (1024 ^ 3) with 1073741824.
  destruct (Z.le_gt_cases n 10737418) as [Hsmall | Hbig].
  - rewrite Z.div_small, Z.mod_small by lia.
    destruct (Z.compare_spec (2 * (n * 100)) 1073741824); cbn [Z.even]; lia.
  - assert (1 <= n * 100 / 1073741824).
    { apply Z.div_le_lower_bound; lia. }
    destruct (2 * ((n * 100) mod 1073741824) ?= 1073741824);
      [destruct (Z.even (n * 100 / 1073741824))| |]; lia.
Qed.

Lemma gb_hundredths_whole (g : Z) : gb_hundredths (g * 1024 ^ 3) = g * 100.
Proof.
  unfold gb_hundredths, PyFloat.div_half_even.
  replace (g * 1024 ^ 3 * 100) with (g * 100 * 1024 ^ 3) by lia.
  rewrite Z.div_mul, Z.mod_mul by discriminate. reflexivity.
Qed.

Lemma bytes_to_gb_hundredths (n : Z) :
  0 <= n < 2 ^ 53 -> bytes_to_gb n = Ok (PyFloat.decimal2 false (gb_hundredths n)).
Proof. exact (bytes_to_gb_meets_spec n). Qed.

(** ** Bytes to gigabytes, continued *)

(** X1: below [2^53] bytes the result of [bytes_to_gb] denotes a number
    of hundredths [k >= 0] that is within half a hundredth of the exact
    quotient: [|k / 100 - n / 1024^3| <= 1 / 200]. *)
Theorem bytes_to_gb_within_half_a_hundredth (n : Z) :
  0 <= n < 2 ^ 53 ->
  bytes_to_gb n = Ok (PyFloat.decimal2 false (gb_hundredths n))
  /\ 0 <= gb_hundredths n
  /\ Z.abs (2 * (gb_hundredths n * 1024 ^ 3 - 100 * n)) <= 1024 ^ 3.
Proof.
  intros Hn. split; [apply bytes_to_gb_hundredths; assumption|].
  unfold gb_hundredths. split.
  - apply PyFloatFacts.div_half_even_nonneg; [lia | reflexivity].
  - pose proof (PyFloatFacts.div_half_even_nearest (n * 100) (1024 ^ 3) eq_refl).
    replace (100 * n) with (n * 100) by lia. assumption.
Qed.

(** 6 000 000 000 bytes are 5.59 gigabytes: 559 hundredths. *)
Lemma bytes_to_gb_within_half_a_hundredth_witness :
  bytes_to_gb 6000000000 = Ok (PyFloat.decimal2 false (gb_hundredths 6000000000))
  /\ 0 <= gb_hundredths 6000000000
  /\ Z.abs (2 * (gb_hundredths 6000000000 * 1024 ^ 3 - 100 * 6000000000)) <= 1024 ^ 3.
Proof.
  apply (bytes_to_gb_within_half_a_hundredth 6000000000).
  split; [discriminate | reflexivity].
Defined.

(** X2: the conversion keeps the order of byte counts: a larger count
    never shows fewer hundredths of a gigabyte. *)
Theorem bytes_to_gb_keeps_order (n m : Z) :
  0 <= n -> n <= m -> m < 2 ^ 53 ->
  bytes_to_gb n = Ok (PyFloat.decimal2 false (gb_hundredths n))
  /\ bytes_to_gb m = Ok (PyFloat.decimal2 false (gb_hundredths m))
  /\ gb_hundredths n <= gb_hundredths m.
Proof.
  intros Hn Hnm Hm.
  split; [apply bytes_to_gb_hundredths; lia|].
  split; [apply bytes_to_gb_hundredths; lia|].
  apply div_half_even_monotone; [reflexivity | lia].
Qed.

Lemma bytes_to_gb_keeps_order_witness :
  bytes_to_gb 6000000000 = Ok (PyFloat.decimal2 false (gb_hundredths 6000000000))
  /\ bytes_to_gb 17179869184
       = Ok (PyFloat.decimal2 false (gb_hundredths 17179869184))
  /\ gb_hundredths 6000000000 <= gb_hundredths 17179869184.
Proof.
  apply (bytes_to_gb_keeps_order 6000000000 17179869184);
    [discriminate | discriminate | reflexivity].
Defined.

(** X3: a whole number of gibibytes converts to itself: [g * 1024^3]
    bytes are [g.00] gigabytes, for every [g] below [2^23]. *)
Theorem bytes_to_gb_of_whole_gigabytes (g : Z) :
  0 <= g < 2 ^ 23 ->
  bytes_to_gb (g * 1024 ^ 3) = Ok (PyFloat.decimal2 false (g * 100)).
Proof.
  intros Hg. rewrite bytes_to_gb_hundredths.
  - rewrite gb_hundredths_whole. reflexivity.
  - change (1024 ^ 3) with (2 ^ 30). change (2 ^ 53) with (2 ^ 23 * 2 ^ 30).
    assert (0 < 2 ^ 30) by reflexivity. nia.
Qed.

(** 16 GiB are 16.00 gigabytes. *)
Lemma bytes_to_gb_of_whole_gigabytes_witness :
  bytes_to_gb (16 * 1024 ^ 3) = Ok (PyFloat.decimal2 false (16 * 100)).
Proof.
  apply (bytes_to_gb_of_whole_gigabytes 16). split; [discriminate | reflexivity].
Defined.

(** X4: counts are shown as 0.0 exactly up to 5 368 709 bytes (a little
    under 5.12 MiB); from 5 368 710 bytes on at least one hundredth is
    shown. *)
Theorem bytes_to_gb_zero_threshold (n : Z) :
  0 <= n < 2 ^ 53 ->
  (n <= 5368709 -> bytes_to_gb n = Ok PyFloat.zero)
  /\ (5368709 < n ->
      exists k, 1 <= k /\ bytes_to_gb n = Ok (PyFloat.decimal2 false k)).
Proof.
  intros Hn. rewrite (bytes_to_gb_hundredths n Hn).
  pose proof (gb_hundredths_zero_iff n ltac:(lia)) as Hz.
  split.
  - intros Hsmall. apply Hz in Hsmall. rewrite Hsmall. reflexivity.
  - intros Hbig. exists (gb_hundredths n). split; [|reflexivity].
    assert (0 <= gb_hundredths n).
    { apply PyFloatFacts.div_half_even_nonneg; [lia | reflexivity]. }
    assert (gb_hundredths n <> 0) by (intros H0; apply Hz in H0; lia).
    lia.
Qed.

Lemma bytes_to_gb_zero_threshold_witness :
  (5368709 <= 5368709 -> bytes_to_gb 5368709 = Ok PyFloat.zero)
  /\ (5368709 < 5368709 ->
      exists k, 1 <= k /\ bytes_to_gb 5368709 = Ok (PyFloat.decimal2 false k)).
Proof.
  apply (bytes_to_gb_zero_threshold 5368709). split; [discriminate | reflexivity].
Defined.

(** X5: [bytes_to_gb] never divides by zero; the only exception it can
    raise is [OverflowError], and only for a negative count or one of
    [2^84] bytes and more. *)
Theorem bytes_to_gb_raises_only_overflow (n : Z) (e : exn) :
  bytes_to_gb n = Raise e ->
  exn_class e = "OverflowError" /\ (n < 0 \/ 2 ^ 84 <= n).
Proof.
  intros Hraise. split.
  - unfold bytes_to_gb, PyFloat.int_truediv in Hraise.
    change (1024 ^ 3 =? 0) with false in Hraise. cbv iota in Hraise.
    destruct (PyFloat.fdiv (PyFloat.int_operand n) (PyFloat.int_operand (1024 ^ 3)));
      cbn [bind] in Hraise; try discriminate.
    injection Hraise as <-. reflexivity.
  - destruct (Z.lt_ge_cases n 0) as [|Hlo]; [left; assumption|].
    destruct (Z.lt_ge_cases n (2 ^ 84)) as [Hhi|]; [|right; assumption].
    destruct (bytes_to_gb_returns n (conj Hlo Hhi)) as [gb Hgb].
    rewrite Hgb in Hraise. discriminate.
Qed.

Lemma bytes_to_gb_raises_only_overflow_witness :
  exn_class (Exn "OverflowError" "integer division result too large for a float")
    = "OverflowError"
  /\ (2 ^ 1100 < 0 \/ 2 ^ 84 <= 2 ^ 1100).
Proof.
  apply (bytes_to_gb_raises_only_overflow (2 ^ 1100)). vm_compute. reflexivity.
Defined.

(** ** The snapshot, continued *)

(** X6: [get_sysinfo] returns exactly when the identity, CPU and memory
    queries return, and its five fields are then the results of the five
    queries, unchanged. *)
Theorem get_sysinfo_returns_iff (env : Env) :
  (returns (get_sysinfo env) <->
     returns (get_system_info env) /\ returns (get_cpu_info env)
     /\ returns (get_memory_info env))
  /\ forall snapshot,
       get_sysinfo env = Ok snapshot ->
       exists system_info cpu memory disk gpu,
         get_system_info env = Ok system_info
         /\ get_cpu_info env = Ok cpu
         /\ get_memory_info env = Ok memory
         /\ get_disk_info env = Ok disk
         /\ get_gpu_info env = Ok gpu
         /\ snapshot = [ ("system", VDict system_info); ("cpu", VDict cpu);
                         ("memory", VDict memory); ("disk", VDict disk);
                         ("gpu", gpu) ].
Proof.
  destruct (get_disk_info_total env) as (disk & Hdisk & _).
  destruct (get_gpu_info_total env) as (gpu & Hgpu & _).
  unfold get_sysinfo, returns. rewrite Hdisk, Hgpu.
  destruct (get_system_info env) as [system_info | e1]; cbn [bind].
  - destruct (get_cpu_info env) as [cpu | e2]; cbn [bind].
    + destruct (get_memory_info env) as [memory | e3]; cbn [bind].
      * split.
        { split; intros _; repeat split; eexists; reflexivity. }
        intros snapshot [= <-]. exists system_info, cpu, memory, disk, gpu.
        repeat split; reflexivity.
      * split; [split|]; [intros [? ?] | intros (_ & _ & [? ?]) | intros ? ?];
          discriminate.
    + split; [split|]; [intros [? ?] | intros (_ & [? ?] & _) | intros ? ?];
        discriminate.
  - split; [split|]; [intros [? ?] | intros ([? ?] & _) | intros ? ?]; discriminate.
Qed.

(** On the plain host the three queries return, and so does the
    snapshot. *)
Lemma get_sysinfo_returns_witness : returns (get_sysinfo plain_host).
Proof.
  apply (proj2 (proj1 (get_sysinfo_returns_iff plain_host))).
  unfold returns. repeat split; eexists; vm_compute; reflexivity.
Defined.

(** X7: [get_sysinfo] raises [e] exactly when the first of the identity,
    CPU and memory queries that raises, in this order, raises [e]; the
    disk and GPU queries never decide it. *)
Theorem get_sysinfo_raises_iff (env : Env) (e : exn) :
  get_sysinfo env = Raise e <->
  get_system_info env = Raise e
  \/ (returns (get_system_info env) /\ get_cpu_info env = Raise e)
  \/ (returns (get_system_info env) /\ returns (get_cpu_info env)
      /\ get_memory_info env = Raise e).
Proof.
  destruct (get_disk_info_total env) as (disk & Hdisk & _).
  destruct (get_gpu_info_total env) as (gpu & Hgpu & _).
  unfold get_sysinfo, returns. rewrite Hdisk, Hgpu.
  destruct (get_system_info env) as [system_info | e1]; cbn [bind].
  - destruct (get_cpu_info env) as [cpu | e2]; cbn [bind].
    + destruct (get_memory_info env) as [memory | e3]; cbn [bind].
      * split; [discriminate|].
        intros [H | [[_ H] | (_ & _ & H)]]; discriminate.
      * split; [intros H; right; right; eauto|].
        intros [H | [[_ H] | (_ & _ & H)]]; (discriminate || assumption).
    + split; [intros H; right; left; eauto|].
      intros [H | [[_ H] | (_ & [? H] & _)]]; (discriminate || assumption).
  - split; [intros H; left; assumption|].
    intros [H | [[[? H] _] | ([? H] & _)]]; (discriminate || assumption).
Qed.

(** The memory error of the unreadable host is the one that escapes. *)
Lemma get_sysinfo_raises_witness :
  get_sysinfo host_memory_unreadable = Raise (os_error "cannot read /proc/meminfo").
Proof.
  apply (proj2 (get_sysinfo_raises_iff host_memory_unreadable
                  (os_error "cannot read /proc/meminfo"))).
  right. right. unfold returns. repeat split; try (eexists; reflexivity).
Defined.

(** ** Helper facts for the further properties *)

Lemma get_cpu_info_name_resolved (env : Env) (cpu : dict) :
  get_cpu_info env = Ok cpu -> processor_name_resolves env.
Proof.
  intros Hcpu.
  destruct (get_cpu_info_inv env cpu Hcpu)
    as (physical & logical & usage & cpu_freq & Hp & Hl & Hu & Hf).
  rewrite (get_cpu_info_unfold env _ _ _ _ Hp Hl Hu Hf) in Hcpu. cbv zeta in Hcpu.
  unfold processor_name_resolves, returns.
  destruct (platform_processor env) as [p | e]; [left; eauto|].
  destruct (CPUINFO_AVAILABLE env); [|discriminate].
  destruct (cpuinfo_get_cpu_info env) as [info | e']; [right; eauto | discriminate].
Qed.

Lemma get_memory_info_inv (env : Env) (memory : dict) :
  get_memory_info env = Ok memory ->
  exists mem total_gb available_gb used_gb,
    psutil_virtual_memory env = Ok mem
    /\ bytes_to_gb (mem_total mem) = Ok total_gb
    /\ bytes_to_gb (mem_available mem) = Ok available_gb
    /\ bytes_to_gb (mem_used mem) = Ok used_gb
    /\ memory = memory_record total_gb available_gb used_gb (mem_percent mem).
Proof.
  unfold get_memory_info.
  destruct (psutil_virtual_memory env) as [mem | ]; cbn [bind]; [|discriminate].
  destruct (bytes_to_gb (mem_total mem)) as [t | ] eqn:Ht; cbn [bind];
    [|discriminate].
  destruct (bytes_to_gb (mem_available mem)) as [a | ] eqn:Ha; cbn [bind];
    [|discriminate].
  destruct (bytes_to_gb (mem_used mem)) as [u | ] eqn:Hu; cbn [bind];
    [|discriminate].
  intros [= <-]. exists mem, t, a, u. auto 10.
Qed.

(** The disk query asks for the usage of one path, the root volume. *)
Lemma get_disk_info_unfold (env : Env) :
  get_disk_info env =
  try_except
    (sys <- platform_system env ;;
     disk <- psutil_disk_usage env (root_volume sys) ;;
     total_gb <- bytes_to_gb (disk_total disk) ;;
     used_gb <- bytes_to_gb (disk_used disk) ;;
     free_gb <- bytes_to_gb (disk_free disk) ;;
     Ok (disk_record total_gb used_gb free_gb (disk_percent disk)))
    (fun e => Ok [ ("error", VStr (exn_str e)) ]).
Proof.
  unfold get_disk_info, root_volume.
  destruct (platform_system env) as [sys | e]; cbn [bind]; [|reflexivity].
  destruct (String.eqb sys "Windows"); reflexivity.
Qed.

(** ** The CPU record, continued *)

(** X8: [get_sysinfo] returns only if every unguarded source answered:
    the identity, both core counts, the utilization, the frequency
    call, a source for the processor name, the memory counters, and the
    three conversions of the memory counters. *)
Theorem get_sysinfo_needs_unguarded_sources (env : Env) :
  returns (get_sysinfo env) ->
  returns (platform_uname env)
  /\ returns (psutil_cpu_count env false)
  /\ returns (psutil_cpu_count env true)
  /\ returns (psutil_cpu_percent env)
  /\ returns (psutil_cpu_freq env)
  /\ processor_name_resolves env
  /\ exists mem,
       psutil_virtual_memory env = Ok mem
       /\ returns (bytes_to_gb (mem_total mem))
       /\ returns (bytes_to_gb (mem_available mem))
       /\ returns (bytes_to_gb (mem_used mem)).
Proof.
  intros [snapshot Hsnap]. unfold get_sysinfo in Hsnap.
  destruct (get_system_info env) as [system_info | ] eqn:Hsys; cbn [bind] in Hsnap;
    [|discriminate].
  destruct (get_cpu_info env) as [cpu | ] eqn:Hcpu; cbn [bind] in Hsnap; [|discriminate].
  destruct (get_memory_info env) as [memory | ] eqn:Hmem; cbn [bind] in Hsnap;
    [|discriminate].
  clear Hsnap.
  destruct (get_cpu_info_inv env cpu Hcpu)
    as (physical & logical & usage & cpu_freq & Hp & Hl & Hu & Hf).
  destruct (get_memory_info_inv env memory Hmem)
    as (mem & t & a & u & Hvm & Ht & Ha & Hused & _).
  unfold returns.
  split.
  { unfold get_system_info in Hsys.
    destruct (platform_uname env) as [un | ]; [eauto | discriminate]. }
  do 4 (split; [solve [eauto]|]).
  split; [exact (get_cpu_info_name_resolved env cpu Hcpu)|].
  exists mem. eauto 10.
Qed.

Lemma get_sysinfo_needs_unguarded_sources_witness :
  returns (platform_uname plain_host)
  /\ returns (psutil_cpu_count plain_host false)
  /\ returns (psutil_cpu_count plain_host true)
  /\ returns (psutil_cpu_percent plain_host)
  /\ returns (psutil_cpu_freq plain_host)
  /\ processor_name_resolves plain_host
  /\ exists mem,
       psutil_virtual_memory plain_host = Ok mem
       /\ returns (bytes_to_gb (mem_total mem))
       /\ returns (bytes_to_gb (mem_available mem))
       /\ returns (bytes_to_gb (mem_used mem)).
Proof.
  apply (get_sysinfo_needs_unguarded_sources plain_host).
  eexists. vm_compute. reflexivity.
Defined.

(** X9: [get_cpu_info] returns exactly when the four psutil calls
    return and the processor name has a source: the platform's
    processor string, or an installed cpuinfo that answers. *)
Theorem get_cpu_info_returns_iff (env : Env) :
  returns (get_cpu_info env) <->
  returns (psutil_cpu_count env false)
  /\ returns (psutil_cpu_count env true)
  /\ returns (psutil_cpu_percent env)
  /\ returns (psutil_cpu_freq env)
  /\ processor_name_resolves env.
Proof.
  split.
  - intros [cpu Hcpu].
    destruct (get_cpu_info_inv env cpu Hcpu)
      as (physical & logical & usage & cpu_freq & Hp & Hl & Hu & Hf).
    unfold returns. do 4 (split; [solve [eauto]|]).
    exact (get_cpu_info_name_resolved env cpu Hcpu).
  - intros (Hp & Hl & Hu & Hf & Hname).
    destruct (get_cpu_info_returns env Hp Hl Hu Hf Hname)
      as (physical & logical & usage & cpu_freq & name & _ & _ & _ & _ & Hcpu).
    eexists. exact Hcpu.
Qed.

(** With cpuinfo answering, the CPU record is returned although the
    platform call fails. *)
Lemma get_cpu_info_returns_witness :
  returns (get_cpu_info (host_without_platform_name true (Ok []))).
Proof.
  apply (proj2 (get_cpu_info_returns_iff (host_without_platform_name true (Ok [])))).
  unfold processor_name_resolves, returns.
  repeat split; try (eexists; reflexivity).
  right. split; [reflexivity | eexists; reflexivity].
Defined.

(** X10: the fallback is not guarded.  When cpuinfo is missing, or
    raises, and [platform.processor()] raises [e], then [get_cpu_info]
    raises [e]: the error of cpuinfo is swallowed, the error of the
    platform call escapes. *)
Theorem processor_name_failure_escapes (env : Env) (e : exn) :
  returns (psutil_cpu_count env false) ->
  returns (psutil_cpu_count env true) ->
  returns (psutil_cpu_percent env) ->
  returns (psutil_cpu_freq env) ->
  CPUINFO_AVAILABLE env = false \/ (exists e', cpuinfo_get_cpu_info env = Raise e') ->
  platform_processor env = Raise e ->
  get_cpu_info env = Raise e.
Proof.
  intros [physical Hp] [logical Hl] [usage Hu] [cpu_freq Hf] Hcase Hproc.
  rewrite (get_cpu_info_unfold env _ _ _ _ Hp Hl Hu Hf). cbv zeta.
  rewrite Hproc. cbn [bind].
  destruct (CPUINFO_AVAILABLE env); [|reflexivity].
  destruct Hcase as [Hcase | [e' He']]; [discriminate|].
  rewrite He'. reflexivity.
Qed.

(** On a host whose platform call fails, a failing cpuinfo lets the
    platform error through. *)
Lemma processor_name_failure_escapes_witness :
  get_cpu_info
    (host_without_platform_name true (Raise (Exn "RuntimeError" "cpuid unavailable")))
  = Raise (os_error "uname failed").
Proof.
  apply (processor_name_failure_escapes
           (host_without_platform_name true
              (Raise (Exn "RuntimeError" "cpuid unavailable")))
           (os_error "uname failed"));
    try (eexists; reflexivity); try reflexivity.
  right. eexists. reflexivity.
Defined.

(** X11: the CPU utilization is stored as psutil reports it, not
    rounded, and every CPU record that is returned has a processor
    name. *)
Theorem cpu_usage_is_passed_through (env : Env) (cpu : dict) :
  get_cpu_info env = Ok cpu ->
  exists usage name,
    psutil_cpu_percent env = Ok usage
    /\ dict_get cpu "cpu_usage_percent" = Some (VFloat usage)
    /\ dict_get cpu "processor_name" = Some name.
Proof.
  intros Hcpu.
  destruct (get_cpu_info_shape env cpu Hcpu)
    as (physical & logical & usage & cpu_freq & name & _ & _ & Hu & _ & ->).
  exists usage, name. split; [exact Hu|].
  destruct cpu_freq; split; reflexivity.
Qed.

(** One third of a percent stays one third of a percent. *)
Lemma cpu_usage_is_passed_through_witness :
  exists usage name,
    psutil_cpu_percent plain_host = Ok usage
    /\ dict_get (cpu_record (Some 4) (Some 8) (PyFloat.decimal2 false 1250)
                            (Some example_freq) (VStr "x86_64"))
                "cpu_usage_percent" = Some (VFloat usage)
    /\ dict_get (cpu_record (Some 4) (Some 8) (PyFloat.decimal2 false 1250)
                            (Some example_freq) (VStr "x86_64"))
                "processor_name" = Some name.
Proof.
  apply (cpu_usage_is_passed_through plain_host). vm_compute. reflexivity.
Defined.

(** ** The memory query *)

(** X12: [get_memory_info] returns exactly the record of the three
    converted counters and the utilization as psutil reports it, not
    rounded; it returns for every reading whose counters are 64-bit
    byte counts, and raises what [psutil.virtual_memory()] raises. *)
Theorem get_memory_info_fields (env : Env) :
  (forall memory,
     get_memory_info env = Ok memory <->
     exists mem total_gb available_gb used_gb,
       psutil_virtual_memory env = Ok mem
       /\ bytes_to_gb (mem_total mem) = Ok total_gb
       /\ bytes_to_gb (mem_available mem) = Ok available_gb
       /\ bytes_to_gb (mem_used mem) = Ok used_gb
       /\ memory = memory_record total_gb available_gb used_gb (mem_percent mem))
  /\ (forall mem,
        psutil_virtual_memory env = Ok mem ->
        byte_count (mem_total mem) -> byte_count (mem_available mem) ->
        byte_count (mem_used mem) ->
        returns (get_memory_info env))
  /\ (forall e, psutil_virtual_memory env = Raise e -> get_memory_info env = Raise e).
Proof.
  split; [|split].
  - intros memory. split; [apply get_memory_info_inv|].
    intros (mem & t & a & u & Hvm & Ht & Ha & Hu & ->).
    unfold get_memory_info. rewrite Hvm. cbn [bind]. rewrite Ht, Ha, Hu. reflexivity.
  - intros mem Hvm Ht Ha Hu.
    destruct (get_memory_info_returns env mem Hvm Ht Ha Hu) as (memory & Hmem & _).
    exists memory. exact Hmem.
  - intros e Hvm. unfold get_memory_info. rewrite Hvm. reflexivity.
Qed.

Lemma get_memory_info_fields_witness : returns (get_memory_info plain_host).
Proof.
  apply (proj1 (proj2 (get_memory_info_fields plain_host)) example_memory);
    try reflexivity; unfold byte_count; cbn; split; (discriminate || reflexivity).
Defined.

(** X13: when the system reports no more used than total memory (below
    [2^53] bytes), the record shows no more used than total gigabytes:
    the hundredths of [used_gb] are at most those of [total_gb]. *)
Theorem memory_used_at_most_total (env : Env) (mem : svmem) :
  psutil_virtual_memory env = Ok mem ->
  0 <= mem_used mem -> mem_used mem <= mem_total mem -> mem_total mem < 2 ^ 53 ->
  0 <= mem_available mem < 2 ^ 53 ->
  exists memory,
    get_memory_info env = Ok memory
    /\ dict_get memory "used_gb"
         = Some (VFloat (PyFloat.decimal2 false (gb_hundredths (mem_used mem))))
    /\ dict_get memory "total_gb"
         = Some (VFloat (PyFloat.decimal2 false (gb_hundredths (mem_total mem))))
    /\ 0 <= gb_hundredths (mem_used mem) <= gb_hundredths (mem_total mem).
Proof.
  intros Hvm Hu Hut Ht Ha.
  unfold get_memory_info. rewrite Hvm. cbn [bind].
  rewrite !bytes_to_gb_hundredths by lia. cbn [bind].
  eexists. split; [reflexivity|]. split; [reflexivity|]. split; [reflexivity|].
  split.
  - apply PyFloatFacts.div_half_even_nonneg; [lia | reflexivity].
  - apply div_half_even_monotone; [reflexivity | lia].
Qed.

(** On the example machine 5.59 of 16.0 gigabytes are in use. *)
Lemma memory_used_at_most_total_witness :
  exists memory,
    get_memory_info plain_host = Ok memory
    /\ dict_get memory "used_gb"
         = Some (VFloat (PyFloat.decimal2 false (gb_hundredths 6000000000)))
    /\ dict_get memory "total_gb"
         = Some (VFloat (PyFloat.decimal2 false (gb_hundredths 17179869184)))
    /\ 0 <= gb_hundredths 6000000000 <= gb_hundredths 17179869184.
Proof.
  apply (memory_used_at_most_total plain_host example_memory);
    try reflexivity; try discriminate.
  split; [discriminate | reflexivity].
Defined.

(** ** The disk query, continued *)

(** X14: a caller tells the two outcomes of [get_disk_info] apart by the
    key [error].  Without it every step has succeeded and the record is
    the four fields of the root volume; with it the record is that one
    key holding text, and none of the four numeric fields. *)
Theorem get_disk_info_error_key (env : Env) (d : dict) :
  get_disk_info env = Ok d ->
  (dict_get d "error" = None ->
     exists sys disk total_gb used_gb free_gb,
       platform_system env = Ok sys
       /\ psutil_disk_usage env (root_volume sys) = Ok disk
       /\ bytes_to_gb (disk_total disk) = Ok total_gb
       /\ bytes_to_gb (disk_used disk) = Ok used_gb
       /\ bytes_to_gb (disk_free disk) = Ok free_gb
       /\ d = disk_record total_gb used_gb free_gb (disk_percent disk))
  /\ (forall v, dict_get d "error" = Some v ->
        (exists text, v = VStr text /\ d = [ ("error", v) ])
        /\ dict_get d "total_gb" = None /\ dict_get d "used_gb" = None
        /\ dict_get d "free_gb" = None
        /\ dict_get d "utilization_percent" = None).
Proof.
  rewrite get_disk_info_unfold.
  destruct (platform_system env) as [sys | e] eqn:Hsys; cbn [bind try_except].
  2: { intros [= <-]. split; [discriminate|]. intros v [= <-]. repeat split. eauto. }
  destruct (psutil_disk_usage env (root_volume sys)) as [disk | e] eqn:Hdisk;
    cbn [bind try_except].
  2: { intros [= <-]. split; [discriminate|]. intros v [= <-]. repeat split. eauto. }
  destruct (bytes_to_gb (disk_total disk)) as [t | e] eqn:Ht; cbn [bind try_except].
  2: { intros [= <-]. split; [discriminate|]. intros v [= <-]. repeat split. eauto. }
  destruct (bytes_to_gb (disk_used disk)) as [u | e] eqn:Hu; cbn [bind try_except].
  2: { intros [= <-]. split; [discriminate|]. intros v [= <-]. repeat split. eauto. }
  destruct (bytes_to_gb (disk_free disk)) as [f | e] eqn:Hf; cbn [bind try_except].
  2: { intros [= <-]. split; [discriminate|]. intros v [= <-]. repeat split. eauto. }
  intros [= <-]. split; [|discriminate].
  intros _. exists sys, disk, t, u, f. auto 10.
Qed.

(** The record of the unreadable host has the key [error] and nothing
    else. *)
Lemma get_disk_info_error_key_witness :
  (exists text, VStr "Permission denied" = VStr text
                /\ [ ("error", VStr "Permission denied") ]
                   = [ ("error", VStr "Permission denied") ])
  /\ dict_get [ ("error", VStr "Permission denied") ] "total_gb" = None
  /\ dict_get [ ("error", VStr "Permission denied") ] "used_gb" = None
  /\ dict_get [ ("error", VStr "Permission denied") ] "free_gb" = None
  /\ dict_get [ ("error", VStr "Permission denied") ] "utilization_percent" = None.
Proof.
  apply (proj2 (get_disk_info_error_key host_disk_unreadable
                  [ ("error", VStr "Permission denied") ] eq_refl)).
  reflexivity.
Defined.

(** X15: the disk query reads one volume only, [C:\] when
    [platform.system()] is "Windows" and [/] otherwise: two hosts that
    agree on the platform name and on the usage of that volume get the
    same answer, whatever their other volumes and sources report. *)
Theorem get_disk_info_reads_only_the_root_volume (env1 env2 : Env) :
  platform_system env1 = platform_system env2 ->
  (forall sys, platform_system env1 = Ok sys ->
     psutil_disk_usage env1 (root_volume sys) = psutil_disk_usage env2 (root_volume sys)) ->
  (forall sys, root_volume sys = if String.eqb sys "Windows" then "C:\" else "/")
  /\ get_disk_info env1 = get_disk_info env2.
Proof.
  intros Hsys Husage. split; [reflexivity|].
  rewrite !get_disk_info_unfold. rewrite <- Hsys.
  destruct (platform_system env1) as [sys | e]; cbn [bind]; [|reflexivity].
  rewrite (Husage sys eq_refl). reflexivity.
Qed.

(** On Windows the volume [/] is never asked for: a host where only
    [C:\] is readable answers like one where every path is. *)
Lemma get_disk_info_root_volume_witness :
  (forall sys, root_volume sys = if String.eqb sys "Windows" then "C:\" else "/")
  /\ get_disk_info windows_host = get_disk_info windows_host_all_paths.
Proof.
  apply (get_disk_info_reads_only_the_root_volume windows_host windows_host_all_paths).
  - reflexivity.
  - intros sys [= <-]. reflexivity.
Defined.

(** ** The GPU query, continued *)

(** X16: a device list is never empty and comes only from a successful
    enumeration by an installed GPUtil; it has one entry per device, in
    the order of the enumeration, and each entry carries the device's id
    and name unchanged. *)
Theorem gpu_list_comes_from_the_enumeration (env : Env) (entries : list pyval) :
  get_gpu_info env = Ok (VList entries) ->
  entries <> []
  /\ GPU_AVAILABLE env = true
  /\ exists gpus,
       GPUtil_getGPUs env = Ok gpus
       /\ List.length entries = List.length gpus
       /\ forall i gpu,
            nth_error gpus i = Some gpu ->
            exists entry,
              nth_error entries i = Some (VDict entry)
              /\ dict_get entry "id" = Some (VInt (gpu_id gpu))
              /\ dict_get entry "name" = Some (VStr (gpu_name gpu)).
Proof.
  intros Hlist.
  destruct (get_gpu_info_entries env entries Hlist) as (gpus & Hg & ->).
  unfold get_gpu_info in Hlist.
  destruct (GPU_AVAILABLE env); cbn [negb] in Hlist; [|discriminate].
  rewrite Hg in Hlist. cbn [bind try_except] in Hlist.
  destruct gpus as [ | gpu gpus]; [discriminate|].
  split; [discriminate|]. split; [reflexivity|].
  exists (gpu :: gpus). split; [exact Hg|]. split; [apply length_map|].
  intros i g Hi. eexists.
  split; [rewrite nth_error_map, Hi; reflexivity|].
  split; reflexivity.
Qed.

Lemma gpu_list_witness :
  [ gpu_entry example_gpu ] <> []
  /\ GPU_AVAILABLE gpu_host = true
  /\ exists gpus,
       GPUtil_getGPUs gpu_host = Ok gpus
       /\ List.length [ gpu_entry example_gpu ] = List.length gpus
       /\ forall i gpu,
            nth_error gpus i = Some gpu ->
            exists entry,
              nth_error [ gpu_entry example_gpu ] i = Some (VDict entry)
              /\ dict_get entry "id" = Some (VInt (gpu_id gpu))
              /\ dict_get entry "name" = Some (VStr (gpu_name gpu)).
Proof.
  apply (gpu_list_comes_from_the_enumeration gpu_host [ gpu_entry example_gpu ]).
  reflexivity.
Defined.

(** X17: the status text tells the cause.  The "not installed" text is
    returned exactly when GPUtil could not be imported, the "no device"
    text exactly when GPUtil is present and enumerates no device, and
    every other status record is the error text of an enumeration that
    raised. *)
Theorem gpu_status_tells_the_cause (env : Env) :
  (get_gpu_info env = Ok (VDict [ ("status", VStr status_not_installed) ])
     <-> GPU_AVAILABLE env = false)
  /\ (get_gpu_info env = Ok (VDict [ ("status", VStr status_no_device) ])
        <-> GPU_AVAILABLE env = true /\ GPUtil_getGPUs env = Ok [])
  /\ (forall status,
        get_gpu_info env = Ok (VDict status) ->
        status <> [ ("status", VStr status_not_installed) ] ->
        status <> [ ("status", VStr status_no_device) ] ->
        exists e,
          GPU_AVAILABLE env = true /\ GPUtil_getGPUs env = Raise e
          /\ status = [ ("status", VStr (status_error e)) ]).
Proof.
  unfold get_gpu_info, status_error.
  destruct (GPU_AVAILABLE env); cbn [negb].
  - destruct (GPUtil_getGPUs env) as [[ | gpu gpus] | e]; cbn [bind try_except].
    + split; [split; discriminate|].
      split; [split; auto|].
      intros status [= <-] _ Hno. contradiction.
    + split; [split; discriminate|].
      split; [split; [discriminate | intros [_ H]; discriminate]|].
      intros status H. discriminate.
    + split; [split; discriminate|].
      split; [split; [discriminate | intros [_ H]; discriminate]|].
      intros status [= <-] _ _. exists e. auto.
  - split; [split; auto|].
    split; [split; [discriminate | intros [H _]; discriminate]|].
    intros status [= <-] Hnot. contradiction.
Qed.

(** The three causes on three hosts. *)
Lemma gpu_status_witness :
  get_gpu_info plain_host = Ok (VDict [ ("status", VStr status_not_installed) ])
  /\ get_gpu_info host_no_device = Ok (VDict [ ("status", VStr status_no_device) ])
  /\ exists e,
       GPU_AVAILABLE host_gpu_failing = true
       /\ GPUtil_getGPUs host_gpu_failing = Raise e
       /\ [ ("status", VStr "Error getting GPU info: nvidia-smi not found") ]
          = [ ("status", VStr (status_error e)) ].
Proof.
  split; [|split].
  - apply (proj2 (proj1 (gpu_status_tells_the_cause plain_host))). reflexivity.
  - apply (proj2 (proj1 (proj2 (gpu_status_tells_the_cause host_no_device)))).
    split; reflexivity.
  - apply (proj2 (proj2 (gpu_status_tells_the_cause host_gpu_failing))
             [ ("status", VStr "Error getting GPU info: nvidia-smi not found") ]);
      [reflexivity | discriminate | discriminate].
Defined.

(** ** End to end *)

(** X18: on a host without GPUtil whose unguarded sources answer and
    whose root volume is readable, [get_sysinfo] returns a snapshot with
    populated [system], [cpu] and [memory] records, the four disk
    fields, and the "not installed" status in the place of the GPU
    list. *)
Theorem snapshot_of_a_host_without_gpu (env : Env) (sys : string) (disk : sdiskusage) :
  unguarded_sources_return env ->
  GPU_AVAILABLE env = false ->
  platform_system env = Ok sys ->
  psutil_disk_usage env (root_volume sys) = Ok disk ->
  byte_count (disk_total disk) -> byte_count (disk_used disk) ->
  byte_count (disk_free disk) ->
  exists snapshot system_info cpu memory d,
    get_sysinfo env = Ok snapshot
    /\ dict_get snapshot "system" = Some (VDict system_info)
    /\ keys system_info = system_keys
    /\ dict_get snapshot "cpu" = Some (VDict cpu)
    /\ (exists with_frequency, keys cpu = cpu_keys with_frequency)
    /\ dict_get snapshot "memory" = Some (VDict memory)
    /\ keys memory = memory_keys
    /\ dict_get snapshot "disk" = Some (VDict d)
    /\ keys d = disk_keys
    /\ dict_get snapshot "gpu"
         = Some (VDict [ ("status", VStr status_not_installed) ]).
Proof.
  intros ([un Hun] & Hp & Hl & Hu & Hf & Hname & mem & Hmem & Ht & Ha & Hus)
         Hgpu Hsys Hdisk Hdt Hdu Hdf.
  destruct (get_cpu_info_returns env Hp Hl Hu Hf Hname)
    as (physical & logical & usage & cpu_freq & name & _ & _ & _ & _ & Hcpu).
  destruct (get_memory_info_returns env mem Hmem Ht Ha Hus) as (memory & Hmemory & Kmem).
  destruct (byte_count_returns _ Hdt) as [t Et].
  destruct (byte_count_returns _ Hdu) as [u Eu].
  destruct (byte_count_returns _ Hdf) as [f Ef].
  unfold get_sysinfo.
  rewrite get_disk_info_unfold, Hsys. cbn [bind]. rewrite Hdisk. cbn [bind].
  rewrite Et, Eu, Ef. cbn [bind try_except].
  unfold get_system_info, get_gpu_info. rewrite Hun, Hcpu, Hmemory, Hgpu.
  cbn [bind negb].
  do 5 eexists. split; [reflexivity|].
  split; [reflexivity|]. split; [reflexivity|]. split; [reflexivity|].
  split; [eexists; apply cpu_record_keys|].
  split; [reflexivity|]. split; [exact Kmem|].
  split; [reflexivity|]. split; reflexivity.
Qed.

(** The plain example host is such a host. *)
Lemma snapshot_of_a_host_without_gpu_witness :
  exists snapshot system_info cpu memory d,
    get_sysinfo plain_host = Ok snapshot
    /\ dict_get snapshot "system" = Some (VDict system_info)
    /\ keys system_info = system_keys
    /\ dict_get snapshot "cpu" = Some (VDict cpu)
    /\ (exists with_frequency, keys cpu = cpu_keys with_frequency)
    /\ dict_get snapshot "memory" = Some (VDict memory)
    /\ keys memory = memory_keys
    /\ dict_get snapshot "disk" = Some (VDict d)
    /\ keys d = disk_keys
    /\ dict_get snapshot "gpu"
         = Some (VDict [ ("status", VStr status_not_installed) ]).
Proof.
  apply (snapshot_of_a_host_without_gpu plain_host "Linux" example_disk);
    try reflexivity;
    try (unfold byte_count; cbn; split; (discriminate || reflexivity)).
  unfold unguarded_sources_return, processor_name_resolves, returns.
  repeat split; try (eexists; reflexivity).
  - left. eexists. reflexivity.
  - exists example_memory. unfold byte_count. cbn.
    repeat split; try reflexivity; discriminate.
Defined.

(** ** The results are finite numbers *)

Module PyFloatShape.
Import PyFloat PyFloatFacts.

Lemma round_finish_53_settled (s : bool) (q : positive) (e : Z) :
  Zpos (digits2_pos q) = 53 -> -1074 <= e <= 971 ->
  settled s e (round_finish s (Zpos q) e).
Proof.
  intros Hq He. exists q, e. rewrite round_finish_53 by assumption.
  split; [reflexivity|]. split; [assumption | lia].
Qed.

Lemma round_finish_53_succ_settled (s : bool) (q : positive) (e : Z) :
  Zpos (digits2_pos q) = 53 -> -1074 <= e <= 970 ->
  settled s e (round_finish s (Zpos q + 1) e).
Proof.
  intros Hq He.
  pose proof (digits2_pos_bounds q) as B. rewrite Hq in B.
  change (Zpos q + 1) with (Zpos (q + 1)).
  destruct (Z.ltb_spec (Zpos (q + 1)) (2 ^ 53)) as [Hlt | Hge].
  - apply round_finish_53_settled; [|lia]. apply digits2_pos_unique. lia.
  - assert (Hp : (q + 1)%positive = 4503599627370496~0%positive).
    { apply Pos2Z.inj. change (Zpos 4503599627370496~0) with (2 ^ 53). lia. }
    rewrite Hp, round_finish_54_even by (reflexivity || lia).
    exists 4503599627370496%positive, (e + 1).
    split; [reflexivity|]. split; [reflexivity | lia].
Qed.

(** After rounding to nearest a 53-bit mantissa stays or grows by one. *)
Lemma rounded_53_settled (s : bool) (q : positive) (e : Z) (l : location) :
  Zpos (digits2_pos q) = 53 -> -1074 <= e <= 970 ->
  settled s e (round_finish s (round_nearest_even (Zpos q) l) e).
Proof.
  intros Hq He.
  destruct l as [ | [ | | ] ]; cbn [round_nearest_even];
    try destruct (Z.even (Zpos q));
    first [ apply round_finish_53_settled; [assumption | lia]
          | apply round_finish_53_succ_settled; assumption ].
Qed.

Lemma round_aux_53_settled (s : bool) (p : positive) (e : Z) (l : location) :
  Zpos (digits2_pos p) = 53 -> -1074 <= e <= 970 ->
  settled s e (binary_round_aux prec emax s (Zpos p) e l).
Proof.
  intros Hp He. rewrite round_aux_finish.
  unfold shr_fexp, fexp, emin, prec, emax. cbn [Zdigits2]. rewrite Hp.
  replace (Z.max (53 + e - 53) (3 - 1024 - 53) - e) with 0 by lia.
  cbn [shr].
  replace (loc_of_shr_record (shr_record_of_loc (Zpos p) l)) with l
    by (destruct l as [ | [ | | ] ]; reflexivity).
  replace (shr_m (shr_record_of_loc (Zpos p) l)) with (Zpos p)
    by (destruct l as [ | [ | | ] ]; reflexivity).
  apply rounded_53_settled; assumption.
Qed.

Lemma round_aux_54_settled (s : bool) (p : positive) (e : Z) (l : location) :
  Zpos (digits2_pos p) = 54 -> -1075 <= e <= 969 ->
  settled s (e + 1) (binary_round_aux prec emax s (Zpos p) e l).
Proof.
  intros Hp He.
  rewrite round_aux_finish, shr_fexp_54 by (assumption || lia).
  destruct p as [q | q | ]; cbn [digits2_pos] in Hp; [| | discriminate];
    rewrite Pos2Z.inj_succ in Hp; assert (Hq : Zpos (digits2_pos q) = 53) by lia.
  - replace (shr_m (shr_1 (shr_record_of_loc (Zpos q~1) l))) with (Zpos q)
      by (destruct l as [ | [ | | ] ]; reflexivity).
    apply rounded_53_settled; [assumption | lia].
  - replace (shr_m (shr_1 (shr_record_of_loc (Zpos q~0) l))) with (Zpos q)
      by (destruct l as [ | [ | | ] ]; reflexivity).
    apply rounded_53_settled; [assumption | lia].
Qed.

(** The quotient of an integer below [2^84] by [2^30] is a float of 53
    bits whose exponent follows the size of the integer. *)
Lemma fdiv_gib_settled (s : bool) (n : positive) :
  Zpos n < 2 ^ 84 ->
  settled s (Zpos (digits2_pos n) - 83)
    (fdiv (S754_finite s n 0) (S754_finite false 1073741824 0)).
Proof.
  intros Hn.
  assert (Hd : Zpos (digits2_pos n) <= 84) by (apply digits2_pos_le; lia).
  unfold fdiv, SFdiv. rewrite (div_core_gib n Hd).
  pose proof (scaled_quotient_bounds n Hd) as Hq.
  destruct (Zpos n * 2 ^ (84 - Zpos (digits2_pos n)) / 2 ^ 30) as [ | q | q ] eqn:E;
    try (exfalso; lia).
  replace (xorb s false) with s by (destruct s; reflexivity).
  replace (Zpos (digits2_pos n) - 83) with (Zpos (digits2_pos n) - 84 + 1) by lia.
  apply round_aux_54_settled; [|lia].
  apply digits2_pos_unique. change (54 - 1) with 53. lia.
Qed.

(** Division by 100 of an integer below [2^60]. *)
Lemma div_core_100 (k : positive) :
  Zpos (digits2_pos k) <= 60 ->
  SFdiv_core_binary prec emax (Zpos k) 0 100 0 =
  ((Zpos k * 2 ^ (60 - Zpos (digits2_pos k))) / 100,
   Zpos (digits2_pos k) - 60,
   new_location 100 ((Zpos k * 2 ^ (60 - Zpos (digits2_pos k))) mod 100)).
Proof.
  intros Hd.
  unfold SFdiv_core_binary, fexp, emin, prec, emax.
  cbn [Zdigits2].
  change (Zpos (digits2_pos 100)) with 7.
  set (d := Zpos (digits2_pos k)) in *.
  assert (0 < d) by (subst d; lia).
  replace (Z.min (Z.max (d + 0 - (7 + 0) - 53) (3 - 1024 - 53)) (0 - 0))
    with (d - 60) by lia.
  replace (0 - 0 - (d - 60)) with (60 - d) by lia.
  assert (Hm : match 60 - d with
               | 0 => Zpos k
               | Zpos _ => Z.shiftl (Zpos k) (60 - d)
               | Zneg _ => 0
               end = Zpos k * 2 ^ (60 - d)).
  { destruct (60 - d) eqn:E; try lia.
    rewrite Z.shiftl_mul_pow2 by lia. reflexivity. }
  rewrite Hm.
  unfold Z.div, Z.modulo.
  destruct (Z.div_eucl (Zpos k * 2 ^ (60 - d)) 100) as [q r].
  reflexivity.
Qed.

(** A positive number of hundredths below [2^60] is a finite float. *)
Lemma decimal2_finite (s : bool) (k : Z) :
  0 < k < 2 ^ 60 -> exists m e, decimal2 s k = S754_finite s m e.
Proof.
  intros Hk. destruct k as [ | k | k ]; try lia.
  assert (Hd : Zpos (digits2_pos k) <= 60) by (apply digits2_pos_le; lia).
  cbn [decimal2]. unfold fdiv, SFdiv. rewrite (div_core_100 k Hd).
  pose proof (digits2_pos_bounds k) as [Blo Bhi].
  set (d := Zpos (digits2_pos k)) in *.
  assert (0 < d) by (subst d; lia).
  assert (Hs : 0 < 2 ^ (60 - d)) by (apply Z.pow_pos_nonneg; lia).
  assert (Hlo : 2 ^ 59 <= Zpos k * 2 ^ (60 - d)).
  { replace 59 with ((d - 1) + (60 - d)) by lia. rewrite Z.pow_add_r by lia. nia. }
  assert (Hhi : Zpos k * 2 ^ (60 - d) < 2 ^ 60).
  { replace 60 with (d + (60 - d)) at 2 by lia. rewrite Z.pow_add_r by lia. nia. }
  assert (Hq : 2 ^ 52 <= Zpos k * 2 ^ (60 - d) / 100 < 2 ^ 54).
  { split.
    - apply Z.div_le_lower_bound; [reflexivity|].
      assert (100 * 2 ^ 52 <= 2 ^ 59) by (vm_compute; discriminate). lia.
    - apply Z.div_lt_upper_bound; [reflexivity|].
      assert (2 ^ 60 <= 100 * 2 ^ 54) by (vm_compute; discriminate). lia. }
  destruct (Zpos k * 2 ^ (60 - d) / 100) as [ | q | q ] eqn:E; try (exfalso; lia).
  replace (xorb s false) with s by (destruct s; reflexivity).
  destruct (Z.ltb_spec (Zpos q) (2 ^ 53)) as [H53 | H54].
  - destruct (round_aux_53_settled s q (d - 60)
                (new_location 100 ((Zpos k * 2 ^ (60 - d)) mod 100)))
      as (m & e & Hr & _); [apply digits2_pos_unique; lia | lia |].
    eauto.
  - destruct (round_aux_54_settled s q (d - 60)
                (new_location 100 ((Zpos k * 2 ^ (60 - d)) mod 100)))
      as (m & e & Hr & _); [apply digits2_pos_unique; lia | lia |].
    eauto.
Qed.

End PyFloatShape.

(** X19: for every 64-bit byte count [bytes_to_gb] returns zero or a
    positive finite float: never an infinity, a NaN or a negative
    number. *)
Theorem bytes_to_gb_is_a_finite_number (n : Z) :
  byte_count n ->
  bytes_to_gb n = Ok PyFloat.zero
  \/ exists m e, bytes_to_gb n = Ok (S754_finite false m e).
Proof.
  intros [Hlo Hhi]. unfold bytes_to_gb, PyFloat.int_truediv.
  change (1024 ^ 3 =? 0) with false. cbv iota.
  change (PyFloat.int_operand (1024 ^ 3)) with (S754_finite false 1073741824 0).
  destruct n as [ | p | p ]; [left; reflexivity | | lia].
  cbn [PyFloat.int_operand].
  assert (H84 : Zpos p < 2 ^ 84).
  { assert (2 ^ 64 < 2 ^ 84) by reflexivity. lia. }
  destruct (PyFloatShape.fdiv_gib_settled false p H84) as (m & e & -> & Hm & He).
  cbn [bind PyFloat.round2].
  assert (Hd : Zpos (digits2_pos p) <= 64)
    by (apply PyFloatFacts.digits2_pos_le; lia).
  assert (Hneg : e < 0) by lia.
  pose proof (PyFloatFacts.digits2_pos_bounds m) as [_ Bm]. rewrite Hm in Bm.
  rewrite PyFloatFacts.hundredths_neg by assumption.
  assert (Hden : 1 <= 2 ^ (- e)).
  { assert (0 < 2 ^ (- e)) by (apply Z.pow_pos_nonneg; lia). lia. }
  pose proof (PyFloatFacts.div_half_even_nonneg (Zpos m * 100) (2 ^ (- e))
                ltac:(lia) ltac:(lia)) as Hk0.
  pose proof (PyFloatFacts.div_half_even_nearest (Zpos m * 100) (2 ^ (- e))
                ltac:(lia)) as Hnear.
  set (k := PyFloat.div_half_even (Zpos m * 100) (2 ^ (- e))) in *.
  destruct (Z.eq_dec k 0) as [-> | Hk].
  - left. reflexivity.
  - right.
    assert (Hk60 : k < 2 ^ 60).
    { assert (100 * 2 ^ 53 + 1 < 2 ^ 60) by reflexivity. nia. }
    destruct (PyFloatShape.decimal2_finite false k ltac:(lia)) as (m' & e' & ->).
    eauto.
Qed.

(** The 500 GB of the example volume are a positive finite number. *)
Lemma bytes_to_gb_is_a_finite_number_witness :
  bytes_to_gb 500107862016 = Ok PyFloat.zero
  \/ exists m e, bytes_to_gb 500107862016 = Ok (S754_finite false m e).
Proof.
  apply (bytes_to_gb_is_a_finite_number 500107862016).
  unfold byte_count. split; [discriminate | reflexivity].
Defined.
